(** * fft (Find File Type): the detection pipeline of [src/fft/detector.py]

    A shallow embedding of [FileTypeDetector] and of the value types of
    [src/fft/types.py], followed by the properties of the pipeline.

    Conventions of the embedding.
    - A Python [str] is a list of Unicode code points ([list N]); [bytes] is
      [list byte].
    - A confidence is an exact rational ([Q]).  The source writes decimal
      float literals and one float division [score / 10.0]; every such
      double is the correctly rounded value of the rational used here, and
      rounding is monotone and fixes 0 and 1, so the order facts proved
      below carry over to the doubles.
    - What the interpreter and the operating system provide (Unicode
      tables beyond ASCII, [json.loads], the file system, libmagic) is
      gathered in the records [PyRuntime] and [Host]; the functions of the
      detector are written over them exactly as the source calls them. *)

From Stdlib Require Import Strings.String Strings.Ascii Strings.Byte.
From Stdlib Require Import Numbers.DecimalString.
From Stdlib Require Import ZArith NArith QArith Qminmax Bool Lia List.
Import ListNotations.

Local Open Scope string_scope.
Local Open Scope list_scope.
Local Open Scope Z_scope.

(** ** Python strings *)

Definition codepoint := N.
Definition str := list codepoint.
Definition bytes := list byte.

(** An ASCII literal of the source, as code points. *)
Definition u (s : string) : str := map N_of_ascii (list_ascii_of_string s).

Fixpoint str_eqb (a b : str) : bool :=
  match a, b with
  | [], [] => true
  | x :: a', y :: b' => N.eqb x y && str_eqb a' b'
  | _, _ => false
  end.

(** [s.startswith(p)] *)
Fixpoint startswith (p s : str) : bool :=
  match p, s with
  | [], _ => true
  | x :: p', y :: s' => N.eqb x y && startswith p' s'
  | _ :: _, [] => false
  end.

(** [s.endswith(p)] *)
Definition endswith (p s : str) : bool := startswith (rev p) (rev s).

(** [p in s] for two strings: [p] occurs at some offset of [s]. *)
Fixpoint str_in (p s : str) : bool :=
  startswith p s ||
  match s with
  | [] => false
  | _ :: s' => str_in p s'
  end.

(** [c in s] for a single character. *)
Definition chr_in (c : codepoint) (s : str) : bool := existsb (N.eqb c) s.

(** [s.split(sep)] for a one-character separator: never the empty list. *)
Fixpoint split (sep : codepoint) (s : str) : list str :=
  match s with
  | [] => [[]]
  | c :: s' =>
      if N.eqb c sep then [] :: split sep s'
      else match split sep s' with
           | [] => [[c]]
           | l :: ls => (c :: l) :: ls
           end
  end.

(** [sep.join(parts)] with the empty separator. *)
Definition join (parts : list str) : str := concat parts.

Fixpoint dropwhile {A} (f : A -> bool) (l : list A) : list A :=
  match l with
  | [] => []
  | x :: l' => if f x then dropwhile f l' else l
  end.

(** [s.rfind(c)]: the last offset of [c] in [s], or -1. *)
Fixpoint rfind_from (c : codepoint) (s : str) (i : Z) (acc : Z) : Z :=
  match s with
  | [] => acc
  | x :: s' => rfind_from c s' (i + 1) (if N.eqb x c then i else acc)
  end.

Definition rfind (c : codepoint) (s : str) : Z := rfind_from c s 0 (-1).

Definition len {A} (l : list A) : Z := Z.of_nat (length l).

(** [l[i:]] and [l[-n:]] for the non-negative offsets the source uses. *)
Definition slice_from {A} (i : Z) (l : list A) : list A := skipn (Z.to_nat i) l.
Definition last_n {A} (n : nat) (l : list A) : list A :=
  skipn (length l - n) l.

(** [str(n)] for a non-negative integer. *)
Definition str_of_nat (n : nat) : str := u (NilZero.string_of_uint (Nat.to_uint n)).

(** ASCII tables.  Python's [str.isspace] holds on 9..13, 28..31 and 32;
    [str.isprintable] on 32..126; [\w] on letters, digits and underscore. *)
Definition is_ascii (c : codepoint) : bool := (c <? 128)%N.
Definition ascii_isupper (c : codepoint) : bool := ((65 <=? c) && (c <=? 90))%N.
Definition ascii_islower (c : codepoint) : bool := ((97 <=? c) && (c <=? 122))%N.
Definition ascii_isdigit (c : codepoint) : bool := ((48 <=? c) && (c <=? 57))%N.
Definition ascii_isalpha (c : codepoint) : bool := ascii_isupper c || ascii_islower c.
Definition ascii_isspace (c : codepoint) : bool :=
  ((9 <=? c) && (c <=? 13))%N || ((28 <=? c) && (c <=? 32))%N.
Definition ascii_isprintable (c : codepoint) : bool := ((32 <=? c) && (c <=? 126))%N.
Definition ascii_isword (c : codepoint) : bool :=
  ascii_isalpha c || ascii_isdigit c || N.eqb c 95.
Definition ascii_lower (c : codepoint) : codepoint :=
  if ascii_isupper c then (c + 32)%N else c.

Inductive JsonOutcome := JsonParsed | JsonDecodeError | JsonOtherError.

(** What the Python runtime knows beyond ASCII, and [json.loads].  The
    Unicode fields are consulted on code points of 128 and above only
    ([uni_lower] on strings that hold one). *)
Record PyRuntime := {
  uni_isspace : codepoint -> bool;
  uni_isprintable : codepoint -> bool;
  uni_isword : codepoint -> bool;
  uni_lower : str -> str;
  uni_ci_eq : codepoint -> codepoint -> bool;
  json_loads : str -> JsonOutcome
}.

Section Strings.
Variable rt : PyRuntime.

Definition isspace (c : codepoint) : bool :=
  if is_ascii c then ascii_isspace c else uni_isspace rt c.
Definition isprintable (c : codepoint) : bool :=
  if is_ascii c then ascii_isprintable c else uni_isprintable rt c.
Definition isword (c : codepoint) : bool :=
  if is_ascii c then ascii_isword c else uni_isword rt c.

(** [s.lower()] *)
Definition lower (s : str) : str :=
  if forallb is_ascii s then map ascii_lower s else uni_lower rt s.

(** [s.strip()] *)
Definition strip (s : str) : str :=
  rev (dropwhile isspace (rev (dropwhile isspace s))).
End Strings.

(** ** [src/fft/types.py] *)

Inductive DetectionMethod := FILESYSTEM | MAGIC | LANGUAGE.

Inductive FileType :=
  (* Programming languages *)
  | PYTHON | JAVASCRIPT | TYPESCRIPT | JAVA | C | CPP | RUST | GO | PHP | RUBY
  | SHELL | POWERSHELL | BATCH
  (* Web technologies *)
  | HTML | CSS | XML | JSON | YAML
  (* Documents *)
  | PDF | WORD | EXCEL | POWERPOINT | TEXT | MARKDOWN
  (* Images *)
  | JPEG | PNG | GIF | SVG | TIFF | BMP | WEBP
  (* Audio/Video *)
  | MP3 | MP4 | AVI | WAV | FLAC
  (* Archives *)
  | ZIP | TAR | GZIP | RAR | SEVEN_ZIP
  (* Executables *)
  | ELF | PE | MACH_O
  (* Data formats *)
  | CSV | TSV | LOG | CONFIG
  (* Special types *)
  | BINARY | EMPTY | SYMLINK | DIRECTORY | UNKNOWN.

(** A [pathlib.Path] in parsed form: the directory part and the final
    component ([Path.name], empty for a root). *)
Record Path := mkPath { parent : str; name : str }.

Definition path_eqb (p q : Path) : bool :=
  str_eqb (parent p) (parent q) && str_eqb (name p) (name q).

Record DetectionResult := mkResult {
  file_path : Path;
  file_type : FileType;
  test_type : DetectionMethod;
  confidence : Q;
  details : option str
}.

(** ** [pathlib]: the two suffix properties the detector reads, as CPython
    up to 3.13 defines them

    [PurePath.suffix]:
      [i = name.rfind('.'); name[i:] if 0 < i < len(name) - 1 else '']
    [PurePath.suffixes]:
      [[] if name.endswith('.') else
       ['.' + s for s in name.lstrip('.').split('.')[1:]]] *)

Definition dot : codepoint := 46%N.

Definition suffix (p : Path) : str :=
  let i := rfind dot (name p) in
  if (0 <? i) && (i <? len (name p) - 1) then slice_from i (name p) else [].

Definition suffixes (p : Path) : list str :=
  if endswith [dot] (name p) then []
  else map (cons dot) (tl (split dot (dropwhile (N.eqb dot) (name p)))).

(** ** Python dictionaries read in insertion order *)

Definition dict (K V : Type) := list (K * V).

Fixpoint dict_get {V} (d : dict str V) (k : str) : option V :=
  match d with
  | [] => None
  | (k', v) :: d' => if str_eqb k' k then Some v else dict_get d' k
  end.

(** [k in d] *)
Definition dict_mem {V} (d : dict str V) (k : str) : bool :=
  match dict_get d k with Some _ => true | None => false end.

Definition keys {K V} (d : dict K V) : list K := map fst d.

(** ** The static tables *)

Definition _build_extension_map : dict str FileType :=
  [ (* Programming languages *)
    (u ".py", PYTHON); (u ".js", JAVASCRIPT); (u ".ts", TYPESCRIPT);
    (u ".java", JAVA); (u ".c", C); (u ".cpp", CPP); (u ".cxx", CPP);
    (u ".cc", CPP); (u ".h", C); (u ".hpp", CPP); (u ".rs", RUST);
    (u ".go", GO); (u ".php", PHP); (u ".rb", RUBY); (u ".sh", SHELL);
    (u ".bash", SHELL); (u ".zsh", SHELL); (u ".fish", SHELL);
    (u ".ps1", POWERSHELL); (u ".bat", BATCH); (u ".cmd", BATCH);
    (* Web technologies *)
    (u ".html", HTML); (u ".htm", HTML); (u ".css", CSS); (u ".xml", XML);
    (u ".json", JSON); (u ".yaml", YAML); (u ".yml", YAML);
    (* Documents *)
    (u ".pdf", PDF); (u ".doc", WORD); (u ".docx", WORD); (u ".xls", EXCEL);
    (u ".xlsx", EXCEL); (u ".ppt", POWERPOINT); (u ".pptx", POWERPOINT);
    (u ".txt", TEXT); (u ".md", MARKDOWN); (u ".markdown", MARKDOWN);
    (* Images *)
    (u ".jpg", JPEG); (u ".jpeg", JPEG); (u ".png", PNG); (u ".gif", GIF);
    (u ".svg", SVG); (u ".tif", TIFF); (u ".tiff", TIFF); (u ".bmp", BMP);
    (u ".webp", WEBP);
    (* Audio/Video *)
    (u ".mp3", MP3); (u ".mp4", MP4); (u ".avi", AVI); (u ".wav", WAV);
    (u ".flac", FLAC);
    (* Archives *)
    (u ".zip", ZIP); (u ".tar", TAR); (u ".gz", GZIP); (u ".tar.gz", GZIP);
    (u ".tgz", GZIP); (u ".rar", RAR); (u ".7z", SEVEN_ZIP);
    (* Data formats *)
    (u ".csv", CSV); (u ".tsv", TSV); (u ".log", LOG); (u ".conf", CONFIG);
    (u ".config", CONFIG); (u ".ini", CONFIG); (u ".cfg", CONFIG) ].

Definition _build_shebang_map : dict str FileType :=
  [ (u "python", PYTHON); (u "node", JAVASCRIPT); (u "bash", SHELL);
    (u "sh", SHELL); (u "zsh", SHELL); (u "fish", SHELL); (u "php", PHP);
    (u "ruby", RUBY); (u "perl", TEXT) ].

(** The [magic_mappings] literal of [_magic_tests]. *)
Definition magic_mappings : dict str FileType :=
  [ (u "pdf", PDF); (u "jpeg", JPEG); (u "png", PNG); (u "gif", GIF);
    (u "zip", ZIP); (u "gzip", GZIP); (u "tar", TAR); (u "rar", RAR);
    (u "elf", ELF); (u "pe32", PE); (u "mach-o", MACH_O); (u "mp3", MP3);
    (u "mp4", MP4); (u "avi", AVI); (u "wav", WAV); (u "html", HTML);
    (u "xml", XML); (u "json", JSON) ].

(** ** The fragment of [re] the detector uses

    The patterns of the source are sequences of literals, [\s], [\w] and
    bracket sets under [*] and [+], with an optional leading [^].  A pattern
    is kept as that flag and a regular expression; [re.search] under
    [re.MULTILINE] tries every offset, a leading [^] holding at offset 0 and
    after each line feed.  Whether some prefix matches is decided with
    Brzozowski derivatives. *)

Inductive citem := IChar (c : codepoint) | IRange (lo hi : codepoint).

Inductive atom :=
  | ALit (c : codepoint)
  | ASpace
  | AWord
  | ASet (negated : bool) (items : list citem).

Inductive regex :=
  | RNone
  | REps
  | RAtom (a : atom)
  | RCat (r1 r2 : regex)
  | RAlt (r1 r2 : regex)
  | RStar (r : regex).

Record Pattern := mkPattern { bol : bool; body : regex }.

Fixpoint nullable (r : regex) : bool :=
  match r with
  | RNone => false
  | REps => true
  | RAtom _ => false
  | RCat a b => nullable a && nullable b
  | RAlt a b => nullable a || nullable b
  | RStar _ => true
  end.

Definition mk_cat (a b : regex) : regex :=
  match a with
  | RNone => RNone
  | REps => b
  | _ => RCat a b
  end.

Definition mk_alt (a b : regex) : regex :=
  match a, b with
  | RNone, _ => b
  | _, RNone => a
  | _, _ => RAlt a b
  end.

Fixpoint deriv (m : atom -> bool) (r : regex) : regex :=
  match r with
  | RNone | REps => RNone
  | RAtom a => if m a then REps else RNone
  | RCat a b =>
      mk_alt (mk_cat (deriv m a) b) (if nullable a then deriv m b else RNone)
  | RAlt a b => mk_alt (deriv m a) (deriv m b)
  | RStar a => mk_cat (deriv m a) (RStar a)
  end.

Section Regex.
Variable rt : PyRuntime.
(** [re.IGNORECASE] *)
Variable ignorecase : bool.

(** A pattern character against a text character.  Only an ASCII letter
    has case variants; beyond ASCII they are the runtime's. *)
Definition chr_matches (c t : codepoint) : bool :=
  N.eqb c t ||
  (ignorecase && ascii_isalpha c &&
   (if is_ascii t then N.eqb (ascii_lower c) (ascii_lower t)
    else uni_ci_eq rt c t)).

Definition in_range (lo hi t : codepoint) : bool := ((lo <=? t) && (t <=? hi))%N.

Definition item_matches (t : codepoint) (i : citem) : bool :=
  match i with
  | IChar c => chr_matches c t
  | IRange lo hi =>
      in_range lo hi t ||
      (ignorecase && is_ascii t &&
       (in_range lo hi (ascii_lower t) ||
        (ascii_islower t && in_range lo hi (t - 32)%N)))
  end.

Definition atom_matches (t : codepoint) (a : atom) : bool :=
  match a with
  | ALit c => chr_matches c t
  | ASpace => isspace rt t
  | AWord => isword rt t
  | ASet negated items => xorb negated (existsb (item_matches t) items)
  end.

(** Some prefix of [s] matches [r]. *)
Fixpoint match_prefix (r : regex) (s : str) : bool :=
  nullable r ||
  match s with
  | [] => false
  | t :: s' => match_prefix (deriv (atom_matches t) r) s'
  end.

Fixpoint search_at (p : Pattern) (at_bol : bool) (s : str) : bool :=
  (implb (bol p) at_bol && match_prefix (body p) s) ||
  match s with
  | [] => false
  | c :: s' => search_at p (N.eqb c 10) s'
  end.

(** [re.search(p, s, re.MULTILINE | flags)] is not [None]. *)
Definition re_search (p : Pattern) (s : str) : bool := search_at p true s.

End Regex.

(** Pattern syntax.  Each entry of the catalog below is preceded by the
    pattern of the source; where that holds an odd number of double quotes,
    the comment writes [Q] for the double quote. *)
Definition lit (s : string) : regex :=
  fold_right (fun c r => RCat (RAtom (ALit c)) r) REps (u s).
Definition chr (c : codepoint) : regex := RAtom (ALit c).
Definition plus (r : regex) : regex := RCat r (RStar r).
Definition seq (l : list regex) : regex := fold_right RCat REps l.
Definition s_star : regex := RStar (RAtom ASpace).
Definition s_plus : regex := plus (RAtom ASpace).
Definition s_one : regex := RAtom ASpace.
Definition w_plus : regex := plus (RAtom AWord).
Definition none_of (c : codepoint) : regex := RAtom (ASet true [IChar c]).
Definition dquote : codepoint := 34%N.
Definition squote : codepoint := 39%N.
Definition quote : regex := RAtom (ASet false [IChar dquote; IChar squote]).
Definition line_start (l : list regex) : Pattern := mkPattern true (seq l).
Definition anywhere (l : list regex) : Pattern := mkPattern false (seq l).

Definition python_patterns : dict Pattern Z :=
  [ (* ^\s*import\s+\w+ *)
    (line_start [s_star; lit "import"; s_plus; w_plus], 3);
    (* ^\s*from\s+\w+\s+import *)
    (line_start [s_star; lit "from"; s_plus; w_plus; s_plus; lit "import"], 3);
    (* ^\s*def\s+\w+\s*\( *)
    (line_start [s_star; lit "def"; s_plus; w_plus; s_star; lit "("], 3);
    (* ^\s*class\s+\w+ *)
    (line_start [s_star; lit "class"; s_plus; w_plus], 3);
    (* if\s+__name__\s*==\s*["\']__main__["\'] *)
    (anywhere [lit "if"; s_plus; lit "__name__"; s_star; lit "=="; s_star;
               quote; lit "__main__"; quote], 5);
    (* ^\s*@\w+ *)
    (line_start [s_star; lit "@"; w_plus], 2);
    (* print\s*\( *)
    (anywhere [lit "print"; s_star; lit "("], 2) ].

Definition javascript_patterns : dict Pattern Z :=
  [ (* ^\s*function\s+\w+\s*\( *)
    (line_start [s_star; lit "function"; s_plus; w_plus; s_star; lit "("], 3);
    (* ^\s*var\s+\w+\s*= *)
    (line_start [s_star; lit "var"; s_plus; w_plus; s_star; lit "="], 2);
    (* ^\s*let\s+\w+\s*= *)
    (line_start [s_star; lit "let"; s_plus; w_plus; s_star; lit "="], 2);
    (* ^\s*const\s+\w+\s*= *)
    (line_start [s_star; lit "const"; s_plus; w_plus; s_star; lit "="], 2);
    (* console\.log\s*\( *)
    (anywhere [lit "console.log"; s_star; lit "("], 3);
    (* require\s*\([Q\'] *)
    (anywhere [lit "require"; s_star; lit "("; quote], 3);
    (* module\.exports\s*= *)
    (anywhere [lit "module.exports"; s_star; lit "="], 3);
    (* => *)
    (anywhere [lit "=>"], 2) ].

Definition java_patterns : dict Pattern Z :=
  [ (* ^\s*public\s+class\s+\w+ *)
    (line_start [s_star; lit "public"; s_plus; lit "class"; s_plus; w_plus], 5);
    (* ^\s*import\s+java\. *)
    (line_start [s_star; lit "import"; s_plus; lit "java."], 3);
    (* ^\s*package\s+\w+ *)
    (line_start [s_star; lit "package"; s_plus; w_plus], 3);
    (* public\s+static\s+void\s+main *)
    (anywhere [lit "public"; s_plus; lit "static"; s_plus; lit "void";
               s_plus; lit "main"], 5);
    (* System\.out\.print *)
    (anywhere [lit "System.out.print"], 3);
    (* ^\s*@Override *)
    (line_start [s_star; lit "@Override"], 2) ].

Definition c_patterns : dict Pattern Z :=
  [ (* #include\s*<[^>]+> *)
    (anywhere [lit "#include"; s_star; lit "<"; plus (none_of 62%N); lit ">"], 3);
    (* #include\s*Q[^Q]+Q *)
    (anywhere [lit "#include"; s_star; chr dquote; plus (none_of dquote);
               chr dquote], 3);
    (* ^\s*int\s+main\s*\( *)
    (line_start [s_star; lit "int"; s_plus; lit "main"; s_star; lit "("], 4);
    (* printf\s*\( *)
    (anywhere [lit "printf"; s_star; lit "("], 3);
    (* malloc\s*\( *)
    (anywhere [lit "malloc"; s_star; lit "("], 2);
    (* free\s*\( *)
    (anywhere [lit "free"; s_star; lit "("], 2) ].

Definition cpp_patterns : dict Pattern Z :=
  [ (* #include\s*<[^>]+> *)
    (anywhere [lit "#include"; s_star; lit "<"; plus (none_of 62%N); lit ">"], 3);
    (* using\s+namespace\s+std *)
    (anywhere [lit "using"; s_plus; lit "namespace"; s_plus; lit "std"], 4);
    (* std:: *)
    (anywhere [lit "std::"], 3);
    (* cout\s*<< *)
    (anywhere [lit "cout"; s_star; lit "<<"], 3);
    (* cin\s*>> *)
    (anywhere [lit "cin"; s_star; lit ">>"], 3);
    (* ^\s*class\s+\w+ *)
    (line_start [s_star; lit "class"; s_plus; w_plus], 3) ].

Definition html_patterns : dict Pattern Z :=
  [ (* <!DOCTYPE\s+html> *)
    (anywhere [lit "<!DOCTYPE"; s_plus; lit "html>"], 5);
    (* <html[^>]*> *)
    (anywhere [lit "<html"; RStar (none_of 62%N); lit ">"], 4);
    (* <head[^>]*> *)
    (anywhere [lit "<head"; RStar (none_of 62%N); lit ">"], 3);
    (* <body[^>]*> *)
    (anywhere [lit "<body"; RStar (none_of 62%N); lit ">"], 3);
    (* <div[^>]*> *)
    (anywhere [lit "<div"; RStar (none_of 62%N); lit ">"], 2);
    (* <p[^>]*> *)
    (anywhere [lit "<p"; RStar (none_of 62%N); lit ">"], 2) ].

Definition css_patterns : dict Pattern Z :=
  [ (* [^{]+\{[^}]+\} *)
    (anywhere [plus (none_of 123%N); lit "{"; plus (none_of 125%N); lit "}"], 4);
    (* @media\s *)
    (anywhere [lit "@media"; s_one], 3);
    (* @import\s *)
    (anywhere [lit "@import"; s_one], 3);
    (* color\s*:\s*[^;]+; *)
    (anywhere [lit "color"; s_star; lit ":"; s_star; plus (none_of 59%N);
               lit ";"], 2);
    (* background\s*:\s*[^;]+; *)
    (anywhere [lit "background"; s_star; lit ":"; s_star; plus (none_of 59%N);
               lit ";"], 2) ].

Definition _build_language_patterns : dict FileType (dict Pattern Z) :=
  [ (PYTHON, python_patterns); (JAVASCRIPT, javascript_patterns);
    (JAVA, java_patterns); (C, c_patterns); (CPP, cpp_patterns);
    (HTML, html_patterns); (CSS, css_patterns) ].

(** The YAML probe of [_language_tests]: [^[a-zA-Z_][a-zA-Z0-9_]*:\s*],
    compiled with [re.MULTILINE] alone. *)
Definition yaml_pattern : Pattern :=
  line_start
    [ RAtom (ASet false [IRange 97%N 122%N; IRange 65%N 90%N; IChar 95%N]);
      RStar (RAtom (ASet false [IRange 97%N 122%N; IRange 65%N 90%N; IRange 48%N 57%N;
                                IChar 95%N]));
      lit ":"; s_star ].

(** ** The operating system as the detector sees it

    A file system maps a path to a symbolic link or to any other kind of
    entry, which carries the [st_mode] and [st_size] that [stat] reports and
    the bytes that [open(path, "rb")] delivers; [None] for the bytes means
    that opening or reading raises [OSError].  [stat] and [open] follow
    links, at most [MAXSYMLINKS] of them, and fail on a missing entry.

    A lookup that finds no entry fails with an [errno]: [ENOENT] for a
    missing file, [ENAMETOOLONG] for a name longer than the file system
    allows, [EACCES] below a directory that may not be searched. *)

Inductive inode :=
  | Symlink (target : Path)
  | Node (mode : Z) (size : Z) (data : option bytes).

Record stat_result := mkStat { st_mode : Z; st_size : Z }.

(** [errno] *)
Definition ENOENT : Z := 2.
Definition EBADF : Z := 9.
Definition EACCES : Z := 13.
Definition ENOTDIR : Z := 20.
Definition ENAMETOOLONG : Z := 36.
Definition ELOOP : Z := 40.

(** What a call gives: a value, or an exception that leaves it. *)
Inductive exception :=
  | OSError (errno : Z).

Inductive outcome (A : Type) :=
  | Returned (a : A)
  | Raised (e : exception).

Arguments Returned {A} a.
Arguments Raised {A} e.

Definition bind {A B : Type} (m : outcome A) (k : A -> outcome B) : outcome B :=
  match m with
  | Returned a => k a
  | Raised e => Raised e
  end.

Notation "x <- m ;; k" := (bind m (fun x => k))
  (at level 61, m at next level, right associativity).

Record Host := {
  rt : PyRuntime;
  fs : Path -> option inode;
  (** the [errno] of the lookup of a path that [fs] has no entry for *)
  lookup_errno : Path -> Z;
  (** [self._magic]: [None] without libmagic; otherwise [from_file], which
      answers with a description or raises. *)
  magic : option (Path -> option str)
}.

Definition MAXSYMLINKS : nat := 40.

Fixpoint follow (f : Path -> option inode) (hops : nat) (p : Path)
  : option (stat_result * option bytes) :=
  match f p with
  | None => None
  | Some (Node m s d) => Some (mkStat m s, d)
  | Some (Symlink t) =>
      match hops with
      | O => None
      | S k => follow f k t
      end
  end.

(** The [errno] of a [stat] that fails: that of the lookup that finds no
    entry along the chain of links, [ELOOP] past [MAXSYMLINKS] links. *)
Fixpoint follow_errno (f : Path -> option inode) (e : Path -> Z) (hops : nat)
  (p : Path) : Z :=
  match f p with
  | None => e p
  | Some (Node _ _ _) => 0
  | Some (Symlink t) =>
      match hops with
      | O => ELOOP
      | S k => follow_errno f e k t
      end
  end.

(** [pathlib._ignore_error]: the errors that [exists], [is_file] and
    [is_symlink] answer with [False]; they raise every other [OSError]
    again. *)
Definition _IGNORED_ERRNOS : list Z := [ENOENT; ENOTDIR; EBADF; ELOOP].

Definition _ignore_error (e : exception) : bool :=
  match e with
  | OSError errno => existsb (Z.eqb errno) _IGNORED_ERRNOS
  end.

(** [stat.S_ISDIR], [stat.S_ISREG] and [stat.S_IXUSR] *)
Definition S_IFMT (m : Z) : Z := Z.land m 61440.    (* 0o170000 *)
Definition S_ISDIR (m : Z) : bool := S_IFMT m =? 16384.  (* 0o040000 *)
Definition S_ISREG (m : Z) : bool := S_IFMT m =? 32768.  (* 0o100000 *)
Definition S_IXUSR : Z := 64.                        (* 0o100 *)

Section OS.
Variable h : Host.

(** [path.stat()]; [None] stands for [OSError], which every caller of the
    detector catches. *)
Definition path_stat (p : Path) : option stat_result :=
  option_map fst (follow (fs h) MAXSYMLINKS p).

(** The [OSError] that a failing [path.stat()] raises. *)
Definition stat_error (p : Path) : exception :=
  OSError (follow_errno (fs h) (lookup_errno h) MAXSYMLINKS p).

(** [path.exists()], as [pathlib] has it up to CPython 3.13: [stat]
    succeeds; where it fails, the answer is [False] for the errors of
    [_ignore_error], and the [OSError] is raised again for every other
    one. *)
Definition path_exists (p : Path) : outcome bool :=
  match path_stat p with
  | Some _ => Returned true
  | None =>
      if negb (_ignore_error (stat_error p)) then Raised (stat_error p)
      else Returned false
  end.

(** [path.is_symlink()]: [lstat] finds a link.  The detector asks this of
    a path whose [stat] succeeded, so its [lstat] succeeds as well. *)
Definition is_symlink (p : Path) : bool :=
  match fs h p with Some (Symlink _) => true | _ => false end.

(** [path.is_file()], called inside [try ... except OSError], where the
    answer [False] and a raised [OSError] lead to the same place. *)
Definition is_file (p : Path) : bool :=
  match path_stat p with Some st => S_ISREG (st_mode st) | None => false end.

(** [with open(path, "rb") as f: f.read(n)]; [n = None] reads to the end;
    the result [None] stands for [OSError]. *)
Definition read_bytes (p : Path) (n : option Z) : option bytes :=
  match follow (fs h) MAXSYMLINKS p with
  | Some (_, Some d) =>
      Some (match n with Some k => firstn (Z.to_nat k) d | None => d end)
  | _ => None
  end.

End OS.

(** ** Codecs: [bytes.decode] for the four encodings of the reader *)

Definition cont (b : byte) : option N :=
  let n := Byte.to_N b in
  if ((128 <=? n) && (n <=? 191))%N then Some (n - 128)%N else None.

(** Strict UTF-8: no overlong form, no surrogate, nothing above U+10FFFF. *)
Fixpoint decode_utf8 (bs : bytes) : option str :=
  match bs with
  | [] => Some []
  | b0 :: t0 =>
      let n0 := Byte.to_N b0 in
      if (n0 <? 128)%N then option_map (cons n0) (decode_utf8 t0)
      else if (n0 <? 194)%N then None
      else if (n0 <? 224)%N then
        match t0 with
        | b1 :: t1 =>
            match cont b1 with
            | Some c1 =>
                option_map (cons ((n0 - 192) * 64 + c1)%N) (decode_utf8 t1)
            | None => None
            end
        | _ => None
        end
      else if (n0 <? 240)%N then
        match t0 with
        | b1 :: b2 :: t2 =>
            match cont b1, cont b2 with
            | Some c1, Some c2 =>
                let cp := ((n0 - 224) * 4096 + c1 * 64 + c2)%N in
                if ((cp <? 2048) || ((55296 <=? cp) && (cp <=? 57343)))%N
                then None
                else option_map (cons cp) (decode_utf8 t2)
            | _, _ => None
            end
        | _ => None
        end
      else if (n0 <? 245)%N then
        match t0 with
        | b1 :: b2 :: b3 :: t3 =>
            match cont b1, cont b2, cont b3 with
            | Some c1, Some c2, Some c3 =>
                let cp := ((n0 - 240) * 262144 + c1 * 4096 + c2 * 64 + c3)%N in
                if ((cp <? 65536) || (1114111 <? cp))%N then None
                else option_map (cons cp) (decode_utf8 t3)
            | _, _, _ => None
            end
        | _ => None
        end
      else None
  end.

(** [utf-8-sig]: UTF-8 after an optional byte order mark. *)
Definition decode_utf8_sig (bs : bytes) : option str :=
  match bs with
  | xef :: xbb :: xbf :: t => decode_utf8 t
  | _ => decode_utf8 bs
  end.

(** [latin-1]: every byte is its own code point. *)
Definition decode_latin1 (bs : bytes) : option str := Some (map Byte.to_N bs).

(** [cp1252]: Latin-1 but for 0x80..0x9F, five of which are undefined. *)
Definition cp1252_char (b : byte) : option codepoint :=
  match b with
  | x81 | x8d | x8f | x90 | x9d => None
  | x80 => Some 8364%N | x82 => Some 8218%N | x83 => Some 402%N
  | x84 => Some 8222%N | x85 => Some 8230%N | x86 => Some 8224%N
  | x87 => Some 8225%N | x88 => Some 710%N | x89 => Some 8240%N
  | x8a => Some 352%N | x8b => Some 8249%N | x8c => Some 338%N
  | x8e => Some 381%N | x91 => Some 8216%N | x92 => Some 8217%N
  | x93 => Some 8220%N | x94 => Some 8221%N | x95 => Some 8226%N
  | x96 => Some 8211%N | x97 => Some 8212%N | x98 => Some 732%N
  | x99 => Some 8482%N | x9a => Some 353%N | x9b => Some 8250%N
  | x9c => Some 339%N | x9e => Some 382%N | x9f => Some 376%N
  | _ => Some (Byte.to_N b)
  end.

Fixpoint decode_cp1252 (bs : bytes) : option str :=
  match bs with
  | [] => Some []
  | b :: t =>
      match cp1252_char b, decode_cp1252 t with
      | Some c, Some s => Some (c :: s)
      | _, _ => None
      end
  end.

(** The [for encoding in encodings] loop of [_read_file_safely]: the first
    decoder that does not raise [UnicodeDecodeError] returns. *)
Fixpoint decode_first (encodings : list (bytes -> option str)) (content_bytes : bytes)
  : option str :=
  match encodings with
  | [] => None
  | decode :: rest =>
      match decode content_bytes with
      | Some s => Some s
      | None => decode_first rest content_bytes
      end
  end.

Definition encodings : list (bytes -> option str) :=
  [decode_utf8; decode_utf8_sig; decode_latin1; decode_cp1252].

(** ** [FileTypeDetector] *)

Definition result (p : Path) (ft : FileType) (m : DetectionMethod) (c : Q)
  (d : option str) : DetectionResult := mkResult p ft m c d.

(** [_appears_binary]: fewer than 70% of the bytes are printable ASCII or
    tab, line feed, carriage return.  On at most 512 bytes the float test
    [ratio < 0.7] is the integer test below. *)
Definition byte_is_printable (b : byte) : bool :=
  let n := Byte.to_N b in
  ((32 <=? n) && (n <=? 126))%N || N.eqb n 9 || N.eqb n 10 || N.eqb n 13.

Definition _appears_binary (data : bytes) : bool :=
  match data with
  | [] => false
  | _ =>
      let printable_count := len (filter byte_is_printable data) in
      10 * printable_count <? 7 * len data
  end.

(** [sample.count(0)] *)
Definition count_null (sample : bytes) : Z :=
  len (filter (fun b => N.eqb (Byte.to_N b) 0) sample).

Section Detector.
Variable h : Host.

(** [_is_text_content]: more than 70% of the characters are printable or
    white space.  For a text that fits in memory (fewer than 10^15
    characters) the float test [ratio > 0.7] is the integer test below. *)
Definition _is_text_content (content : str) : bool :=
  match content with
  | [] => true
  | _ =>
      let printable_chars :=
        len (filter (fun c => isprintable (rt h) c || isspace (rt h) c) content) in
      7 * len content <? 10 * printable_chars
  end.

(** [_read_file_safely], with [max_size] at its default of 1 MiB. *)
Definition max_size : Z := 1024 * 1024.

Definition _read_file_safely (p : Path) : option str :=
  match path_stat h p with
  | None => None                                   (* except OSError *)
  | Some st =>
      match (if max_size <? st_size st
             then read_bytes h p (Some 8192)
             else read_bytes h p None) with
      | None => None                               (* except OSError *)
      | Some content_bytes => decode_first encodings content_bytes
      end
  end.

(** [_filesystem_tests] *)
Definition executable_suffixes : list str :=
  [u ".exe"; u ".dll"; u ".so"; u ".app"].

Definition extension_details (s : str) : option str := Some (u "Extension: " ++ s).

(** The executable rule: owner-executable bit and one of four suffixes. *)
Definition executable_check (file_stat : stat_result) (p : Path)
  : option DetectionResult :=
  if negb (Z.land (st_mode file_stat) S_IXUSR =? 0) then
    let suffix := lower (rt h) (suffix p) in
    if existsb (str_eqb suffix) executable_suffixes then
      match dict_get _build_extension_map suffix with
      | Some ft =>
          Some (result p ft FILESYSTEM (9 # 10) (Some (u "Executable file")))
      | None => None
      end
    else None
  else None.

(** Multiple extensions: all the suffixes, then the last two. *)
Definition multiple_extensions_check (p : Path) : option DetectionResult :=
  if 1 <? len (suffixes p) then
    let combined_suffix := lower (rt h) (join (suffixes p)) in
    match dict_get _build_extension_map combined_suffix with
    | Some ft =>
        Some (result p ft FILESYSTEM (8 # 10) (extension_details combined_suffix))
    | None =>
        if 2 <=? len (suffixes p) then
          let last_two := lower (rt h) (join (last_n 2 (suffixes p))) in
          match dict_get _build_extension_map last_two with
          | Some ft =>
              Some (result p ft FILESYSTEM (8 # 10) (extension_details last_two))
          | None => None
          end
        else None
    end
  else None.

(** Single extension-based detection. *)
Definition single_extension_check (p : Path) : option DetectionResult :=
  let suffix := lower (rt h) (suffix p) in
  match dict_get _build_extension_map suffix with
  | Some ft => Some (result p ft FILESYSTEM (8 # 10) (extension_details suffix))
  | None => None
  end.

Definition _filesystem_tests (p : Path) : option DetectionResult :=
  match path_stat h p with
  | None => None                                   (* except OSError *)
  | Some file_stat =>
      if S_ISDIR (st_mode file_stat) then
        Some (result p DIRECTORY FILESYSTEM 1 None)
      else if is_symlink h p then
        Some (result p SYMLINK FILESYSTEM 1 None)
      else if st_size file_stat =? 0 then
        Some (result p EMPTY FILESYSTEM 1 None)
      else
        match executable_check file_stat p with
        | Some r => Some r
        | None =>
            match multiple_extensions_check p with
            | Some r => Some r
            | None => single_extension_check p
            end
        end
  end.

(** [_magic_tests] *)
Definition magic_details (magic_result : str) : option str :=
  Some (u "Magic: " ++ magic_result).

Fixpoint magic_scan (items : dict str FileType) (magic_lower magic_result : str)
  (p : Path) : option DetectionResult :=
  match items with
  | [] => None
  | (pattern, ft) :: rest =>
      if str_in pattern magic_lower then
        Some (result p ft MAGIC (9 # 10) (magic_details magic_result))
      else magic_scan rest magic_lower magic_result p
  end.

Definition _magic_tests (p : Path) : option DetectionResult :=
  match magic h with
  | None => None
  | Some from_file =>
      match from_file p with
      | None => None                               (* except Exception *)
      | Some magic_result =>
          let magic_lower := lower (rt h) magic_result in
          match magic_scan magic_mappings magic_lower magic_result p with
          | Some r => Some r
          | None =>
              if str_in (u "text") magic_lower then
                Some (result p TEXT MAGIC (6 # 10) (magic_details magic_result))
              else if existsb (fun keyword => str_in keyword magic_lower)
                        [u "binary"; u "data"; u "executable"] then
                Some (result p BINARY MAGIC (7 # 10) (magic_details magic_result))
              else None
          end
      end
  end.

(** [_language_tests]: the shebang loop *)
Fixpoint shebang_scan (items : dict str FileType) (shebang : str) (p : Path)
  : option DetectionResult :=
  match items with
  | [] => None
  | (pattern, ft) :: rest =>
      if str_in pattern shebang then
        Some (result p ft LANGUAGE (9 # 10) (Some (u "Shebang: " ++ shebang)))
      else shebang_scan rest shebang p
  end.

(** [_language_tests]: the inner loop over the patterns of one category,
    which accumulates [score] and [matches]. *)
Definition score_step (content : str) (acc : Z * list Pattern)
  (entry : Pattern * Z) : Z * list Pattern :=
  let '(score, matches) := acc in
  let '(pattern, weight) := entry in
  if re_search (rt h) true pattern content
  then (score + weight, matches ++ [pattern])
  else (score, matches).

Definition score_patterns (content : str) (patterns : dict Pattern Z)
  : Z * list Pattern :=
  fold_left (score_step content) patterns (0, []).

Definition pattern_details (matches : list Pattern) : option str :=
  Some (u "Language patterns: " ++ str_of_nat (length matches) ++ u " matches").

(** [_language_tests]: the outer loop over the categories *)
Fixpoint pattern_scan (catalog : dict FileType (dict Pattern Z)) (content : str)
  (p : Path) : option DetectionResult :=
  match catalog with
  | [] => None
  | (ft, patterns) :: rest =>
      let '(score, matches) := score_patterns content patterns in
      if 3 <=? score then
        Some (result p ft LANGUAGE (Qmin (score # 10) 1) (pattern_details matches))
      else pattern_scan rest content p
  end.

(** [_language_tests]: generic text detection.  [json.loads] may raise
    something other than [JSONDecodeError]; the enclosing
    [except Exception] then ends the stage without a result. *)
Definition csv_like (content : str) : bool :=
  chr_in 44%N content && chr_in 10%N content &&
  let lines_sample := firstn 5 (split 10%N content) in
  forallb (chr_in 44%N)
    (filter (fun line => negb (str_eqb (strip (rt h) line) [])) lines_sample).

Definition text_tail (content : str) (p : Path) : option DetectionResult :=
  if re_search (rt h) false yaml_pattern content then
    Some (result p YAML LANGUAGE (7 # 10) (Some (u "YAML-like structure")))
  else if csv_like content then
    Some (result p CSV LANGUAGE (7 # 10) (Some (u "CSV-like structure")))
  else Some (result p TEXT LANGUAGE (6 # 10) None).

Definition generic_text (content : str) (p : Path) : option DetectionResult :=
  if _is_text_content content then
    if startswith (u "{") (strip (rt h) content)
       && endswith (u "}") (strip (rt h) content) then
      match json_loads (rt h) content with
      | JsonParsed =>
          Some (result p JSON LANGUAGE (8 # 10) (Some (u "Valid JSON structure")))
      | JsonDecodeError => text_tail content p
      | JsonOtherError => None                     (* except Exception *)
      end
    else text_tail content p
  else None.

(** [_language_tests]: the shebang check on [lines[0]] *)
Definition shebang_check (content : str) (p : Path) : option DetectionResult :=
  match split 10%N content with
  | line0 :: _ =>
      if startswith (u "#!") line0
      then shebang_scan _build_shebang_map (strip (rt h) line0) p
      else None
  | [] => None
  end.

Definition _language_tests (p : Path) : option DetectionResult :=
  match _read_file_safely p with
  | None =>
      Some (result p BINARY LANGUAGE (8 # 10) (Some (u "Non-text content")))
  | Some content =>
      match shebang_check content p with
      | Some r => Some r
      | None =>
          match pattern_scan _build_language_patterns content p with
          | Some r => Some r
          | None => generic_text content p
          end
      end
  end.

(** The final fallback of [detect_file_type] samples 512 bytes. *)
Definition binary_fallback (p : Path) : bool :=
  if is_file h p then
    match path_stat h p with
    | None => false                                (* except OSError *)
    | Some st =>
        if 0 <? st_size st then
          match read_bytes h p (Some 512) with
          | None => false                          (* except OSError *)
          | Some sample => (0 <? count_null sample) || _appears_binary sample
          end
        else false
    end
  else false.

(** [detect_file_type]: the call of [file_path.exists()] stands outside
    every [try], so what it raises leaves [detect_file_type]. *)
Definition detect_file_type (p : Path) : outcome DetectionResult :=
  found <- path_exists h p ;;
  if negb found then
    Returned (result p UNKNOWN FILESYSTEM 1 (Some (u "File not found")))
  else
    match _filesystem_tests p with
    | Some r => Returned r
    | None =>
        match _magic_tests p with
        | Some r => Returned r
        | None =>
            match _language_tests p with
            | Some r => Returned r
            | None =>
                if binary_fallback p then
                  Returned (result p BINARY LANGUAGE (8 # 10)
                              (Some (u "Binary content detected")))
                else Returned (result p UNKNOWN FILESYSTEM (1 # 10) None)
            end
        end
    end.

End Detector.

(** ** Vocabulary of the statements *)

Fixpoint distinct (l : list str) : bool :=
  match l with
  | [] => true
  | k :: l' => negb (existsb (str_eqb k) l') && distinct l'
  end.

(** The patterns of a category that match the text, and the sum of the
    weights of a list of entries. *)
Definition matching (h : Host) (content : str) (patterns : dict Pattern Z)
  : dict Pattern Z :=
  filter (fun entry => re_search (rt h) true (fst entry) content) patterns.

Definition weight_sum (entries : dict Pattern Z) : Z :=
  fold_right Z.add 0 (map snd entries).

(** A confidence in the interval (0, 1]. *)
Definition valid_confidence (c : Q) : Prop := (0 < c)%Q /\ (c <= 1)%Q.

(** The answers the content stage can give. *)
Inductive language_answer (h : Host) (p : Path) : DetectionResult -> Prop :=
  | answer_non_text :
      read_bytes h p None = None ->
      language_answer h p
        (result p BINARY LANGUAGE (8 # 10) (Some (u "Non-text content")))
  | answer_shebang pattern ft shebang :
      In (pattern, ft) _build_shebang_map ->
      language_answer h p
        (result p ft LANGUAGE (9 # 10) (Some (u "Shebang: " ++ shebang)))
  | answer_patterns ft patterns content :
      In (ft, patterns) _build_language_patterns ->
      3 <= fst (score_patterns h content patterns) ->
      language_answer h p
        (result p ft LANGUAGE
           (Qmin (fst (score_patterns h content patterns) # 10) 1)
           (pattern_details (snd (score_patterns h content patterns))))
  | answer_json :
      language_answer h p
        (result p JSON LANGUAGE (8 # 10) (Some (u "Valid JSON structure")))
  | answer_yaml :
      language_answer h p
        (result p YAML LANGUAGE (7 # 10) (Some (u "YAML-like structure")))
  | answer_csv :
      language_answer h p
        (result p CSV LANGUAGE (7 # 10) (Some (u "CSV-like structure")))
  | answer_text :
      language_answer h p (result p TEXT LANGUAGE (6 # 10) None).

(** ** Hosts for the examples

    One entry under [/tmp], a Python runtime that is asked nothing beyond
    ASCII, and libmagic as given. *)

Definition ascii_runtime : PyRuntime := {|
  uni_isspace := fun _ => false;
  uni_isprintable := fun _ => true;
  uni_isword := fun _ => false;
  uni_lower := fun s => s;
  uni_ci_eq := fun _ _ => false;
  json_loads := fun _ => JsonDecodeError
|}.

Definition tmp (file : string) : Path := mkPath (u "/tmp") (u file).

Definition host_with (p : Path) (i : inode) (m : option (Path -> option str))
  : Host :=
  {| rt := ascii_runtime;
     fs := fun q => if path_eqb q p then Some i else None;
     lookup_errno := fun _ => ENOENT;
     magic := m |}.

(** The [st_mode] of a [-rw-r--r--] and of a [-rwxr-xr-x] regular file. *)
Definition mode_644 : Z := 33188.   (* 0o100644 *)
Definition mode_755 : Z := 33261.   (* 0o100755 *)

Definition regular_file (file : string) (mode : Z) (content : string) : Host :=
  host_with (tmp file)
    (Node mode (len (list_byte_of_string content)) (Some (list_byte_of_string content)))
    None.

(** A file the process may not read, a link whose target is gone, and ten
    bytes of which seven are printable. *)
Definition unreadable_host : Host :=
  host_with (tmp "notes") (Node mode_644 1024 None) None.

Definition dangling_host : Host :=
  host_with (tmp "link") (Symlink (tmp "gone")) None.

(** A file system that refuses names of more than [NAME_MAX] = 255 bytes
    with [ENAMETOOLONG]; on it, a name of 300 letters x, and a link with
    that name for its target. *)
Definition NAME_MAX : Z := 255.

Definition overlong_name : str := repeat 120%N 300.

Definition overlong_path : Path := mkPath (u "/tmp") overlong_name.

Definition name_limit_errno (q : Path) : Z :=
  if NAME_MAX <? len (name q) then ENAMETOOLONG else ENOENT.

Definition overlong_host : Host :=
  {| rt := ascii_runtime;
     fs := fun _ => None;
     lookup_errno := name_limit_errno;
     magic := None |}.

Definition overlong_link_host : Host :=
  {| rt := ascii_runtime;
     fs := fun q => if path_eqb q (tmp "link") then Some (Symlink overlong_path)
                    else None;
     lookup_errno := name_limit_errno;
     magic := None |}.

Definition blob_host : Host :=
  host_with (tmp "blob")
    (Node mode_644 10 (Some (list_byte_of_string "abcdefg" ++ [x01; x01; x01])))
    None.

Definition is_unknown (ft : FileType) : bool :=
  match ft with UNKNOWN => true | _ => false end.

(** The files of the examples. *)
Definition with_magic (h : Host) (description : string) : Host :=
  {| rt := rt h; fs := fs h; lookup_errno := lookup_errno h;
     magic := Some (fun _ => Some (u description)) |}.

Definition print_host : Host := regular_file "hello" mode_644 "print('hi')".
Definition print_hi : str := u "print('hi')".

Definition import_host : Host :=
  regular_file "Main" mode_644 "import java.util.List;".

Definition shebang_line : string := "#!/usr/bin/env python3".

Definition script_host : Host :=
  regular_file "python_script" mode_755 "#!/usr/bin/env python3
import os
".

Definition archive_host : Host :=
  regular_file "archive.tar.gz" mode_644 "fake compressed content".

(** The three strings the filesystem stage looks up, longest first. *)
Definition all_suffixes (h : Host) (p : Path) : str :=
  lower (rt h) (join (suffixes p)).
Definition last_two_suffixes (h : Host) (p : Path) : str :=
  lower (rt h) (join (last_n 2 (suffixes p))).
Definition final_suffix (h : Host) (p : Path) : str :=
  lower (rt h) (suffix p).

(** The answer of the extension rules for the suffix string [s]. *)
Definition extension_answer (p : Path) (s : str) (ft : FileType)
  : DetectionResult :=
  result p ft FILESYSTEM (8 # 10) (Some (u "Extension: " ++ s)).

(** A byte below 0x80, which every decoder of the reader maps to itself. *)
Definition byte_is_ascii (b : byte) : bool := (Byte.to_N b <? 128)%N.

(** The end of a line: nothing more, or a line feed. *)
Definition line_ends {A} (lf : A) (rest : list A) : Prop :=
  rest = [] \/ exists r, rest = lf :: r.

(** What it means for a string to match a regular expression, given the
    test [am] of a character against an atom. *)
Inductive matches (am : codepoint -> atom -> bool) : regex -> str -> Prop :=
  | matches_eps : matches am REps []
  | matches_atom a t : am t a = true -> matches am (RAtom a) [t]
  | matches_cat r1 r2 s1 s2 :
      matches am r1 s1 -> matches am r2 s2 -> matches am (RCat r1 r2) (s1 ++ s2)
  | matches_alt_l r1 r2 s : matches am r1 s -> matches am (RAlt r1 r2) s
  | matches_alt_r r1 r2 s : matches am r2 s -> matches am (RAlt r1 r2) s
  | matches_star_nil r : matches am (RStar r) []
  | matches_star_more r s1 s2 :
      matches am r s1 -> matches am (RStar r) s2 ->
      matches am (RStar r) (s1 ++ s2).

(** The offset after [before] starts a line: it is offset 0 (where
    [at_bol] says whether a line starts) or it follows a line feed. *)
Definition starts_line (at_bol : bool) (before : str) : bool :=
  match before with
  | [] => at_bol
  | _ => N.eqb (last before 0%N) 10
  end.

(** The files of [tests/test_detector.py], on a host without libmagic.
    [dq] is the double-quote character. *)
Definition dq : string := String (Ascii.ascii_of_nat 34) EmptyString.

Definition text_of (pieces : list string) : string := String.concat "" pieces.

Definition mode_dir : Z := 16877.   (* 0o040755 *)

Definition test_dir_host : Host :=
  host_with (tmp "testdir") (Node mode_dir 4096 None) None.

Definition python_script_text : string :=
  text_of [ "#!/usr/bin/env python3
import os
import sys

def main():
    print("; dq; "Hello, world!"; dq; ")

if __name__ == "; dq; "__main__"; dq; ":
    main()
" ].

Definition js_script_text : string :=
  text_of [ "function greet(name) {
    console.log(`Hello, ${name}!`);
}

const message = "; dq; "Welcome"; dq; ";
let count = 0;

greet("; dq; "World"; dq; ");
" ].

Definition shell_script_text : string :=
  text_of [ "#!/bin/bash
echo "; dq; "This is a shell script"; dq; "
for i in {1..5}; do
    echo "; dq; "Count: $i"; dq; "
done
" ].

Definition binary_file_host : Host :=
  host_with (tmp "binary_file")
    (Node mode_644 7 (Some [x00; x01; x02; x03; xff; xfe; xfd])) None.

(** A host with two entries, for links and for pairs of files. *)
Definition host_two (p1 : Path) (i1 : inode) (p2 : Path) (i2 : inode) : Host :=
  {| rt := ascii_runtime;
     fs := fun q => if path_eqb q p1 then Some i1
                    else if path_eqb q p2 then Some i2 else None;
     lookup_errno := fun _ => ENOENT;
     magic := None |}.

Definition file_node (mode : Z) (content : string) : inode :=
  Node mode (len (list_byte_of_string content)) (Some (list_byte_of_string content)).

(** A link to a directory and a link to a Python file. *)
Definition linked_dir_host : Host :=
  host_two (tmp "current") (Symlink (tmp "release-1.0"))
           (tmp "release-1.0") (Node mode_dir 4096 None).

Definition linked_file_host : Host :=
  host_two (tmp "latest.py") (Symlink (tmp "test.py"))
           (tmp "test.py") (file_node mode_644 "print('Hello, world!')").

(** A Python file, named in upper case, that the process may not read. *)
Definition unreadable_py_host : Host :=
  host_with (tmp "Secret.PY") (Node mode_644 1024 None) None.

(** What an answer says, apart from the path it is about. *)
Definition answer_of (r : DetectionResult)
  : FileType * DetectionMethod * Q * option str :=
  (file_type r, test_type r, confidence r, details r).

(** A name with its ASCII letters in lower case. *)
Definition lowered (p : Path) : Path := mkPath (parent p) (map ascii_lower (name p)).

(** Two files whose names differ in case only. *)
Definition readme_host : Host :=
  host_two (tmp "NOTES.Tar.GZ") (file_node mode_644 "one")
           (tmp "notes.tar.gz") (file_node mode_644 "two").

(** ** [src/fft/types.py]: the values of the enumerations and [__str__] *)

Definition method_value (m : DetectionMethod) : str :=
  match m with
  | FILESYSTEM => u "filesystem"
  | MAGIC => u "magic"
  | LANGUAGE => u "language"
  end.

Definition file_type_value (ft : FileType) : str :=
  match ft with
  | PYTHON => u "Python source"
  | JAVASCRIPT => u "JavaScript source"
  | TYPESCRIPT => u "TypeScript source"
  | JAVA => u "Java source"
  | C => u "C source"
  | CPP => u "C++ source"
  | RUST => u "Rust source"
  | GO => u "Go source"
  | PHP => u "PHP source"
  | RUBY => u "Ruby source"
  | SHELL => u "Shell script"
  | POWERSHELL => u "PowerShell script"
  | BATCH => u "Batch file"
  | HTML => u "HTML document"
  | CSS => u "CSS stylesheet"
  | XML => u "XML document"
  | JSON => u "JSON data"
  | YAML => u "YAML data"
  | PDF => u "PDF document"
  | WORD => u "Microsoft Word document"
  | EXCEL => u "Microsoft Excel spreadsheet"
  | POWERPOINT => u "Microsoft PowerPoint presentation"
  | TEXT => u "Text file"
  | MARKDOWN => u "Markdown document"
  | JPEG => u "JPEG image"
  | PNG => u "PNG image"
  | GIF => u "GIF image"
  | SVG => u "SVG image"
  | TIFF => u "TIFF image"
  | BMP => u "BMP image"
  | WEBP => u "WebP image"
  | MP3 => u "MP3 audio"
  | MP4 => u "MP4 video"
  | AVI => u "AVI video"
  | WAV => u "WAV audio"
  | FLAC => u "FLAC audio"
  | ZIP => u "ZIP archive"
  | TAR => u "TAR archive"
  | GZIP => u "GZIP archive"
  | RAR => u "RAR archive"
  | SEVEN_ZIP => u "7-Zip archive"
  | ELF => u "ELF executable"
  | PE => u "PE executable"
  | MACH_O => u "Mach-O executable"
  | CSV => u "CSV data"
  | TSV => u "TSV data"
  | LOG => u "Log file"
  | CONFIG => u "Configuration file"
  | BINARY => u "Binary file"
  | EMPTY => u "Empty file"
  | SYMLINK => u "Symbolic link"
  | DIRECTORY => u "Directory"
  | UNKNOWN => u "Unknown file type"
  end.

Definition all_file_types : list FileType :=
  [ PYTHON; JAVASCRIPT; TYPESCRIPT; JAVA; C; CPP; RUST; GO; PHP; RUBY; SHELL;
    POWERSHELL; BATCH; HTML; CSS; XML; JSON; YAML; PDF; WORD; EXCEL;
    POWERPOINT; TEXT; MARKDOWN; JPEG; PNG; GIF; SVG; TIFF; BMP; WEBP; MP3;
    MP4; AVI; WAV; FLAC; ZIP; TAR; GZIP; RAR; SEVEN_ZIP; ELF; PE; MACH_O;
    CSV; TSV; LOG; CONFIG; BINARY; EMPTY; SYMLINK; DIRECTORY; UNKNOWN ].

(** What the command line needs besides the host: [str(path)], the number
    of parts of [path.relative_to(Path.cwd())] ([None] for [ValueError]),
    and the float arithmetic of [int(confidence * 100)]. *)
Record Shell := {
  path_str : Path -> str;
  relative_parts : Path -> option Z;
  percent : Q -> Z
}.

(** Truth of an optional string: [None] and the empty string are false. *)
Definition truthy (d : option str) : bool :=
  match d with
  | Some (_ :: _) => true
  | _ => false
  end.

Definition text_or_empty (d : option str) : str :=
  match d with Some t => t | None => [] end.

(** [str(n)] for an integer. *)
Definition str_of_int (n : Z) : str := u (NilZero.string_of_int (Z.to_int n)).

(** [DetectionResult.__str__] *)
Definition DetectionResult_str (sh : Shell) (r : DetectionResult) : str :=
  if truthy (details r) then
    path_str sh (file_path r) ++ u ": " ++ file_type_value (file_type r)
      ++ u " (" ++ text_or_empty (details r) ++ u ")"
  else path_str sh (file_path r) ++ u ": " ++ file_type_value (file_type r).

(** ** [src/fft/cli.py] *)

(** [_run_specific_test] *)
Definition _run_specific_test (h : Host) (file_path : Path) (test_type : str)
  : option DetectionResult :=
  if str_eqb test_type (u "filesystem") then _filesystem_tests h file_path
  else if str_eqb test_type (u "magic") then _magic_tests h file_path
  else if str_eqb test_type (u "language") then _language_tests h file_path
  else None.

(** [_display_result]: the line given to [click.echo]. *)
Definition _display_result (sh : Shell) (r : DetectionResult) (verbose quiet : bool)
  : str :=
  if quiet then
    path_str sh (file_path r) ++ u ": " ++ file_type_value (file_type r)
  else if verbose then
    let confidence_pct := percent sh (confidence r) in
    let test_info :=
      u "[" ++ method_value (test_type r) ++ u ", " ++ str_of_int confidence_pct
        ++ u "% confidence]" in
    if truthy (details r) then
      path_str sh (file_path r) ++ u ": " ++ file_type_value (file_type r)
        ++ u " " ++ test_info ++ u " - " ++ text_or_empty (details r)
    else
      path_str sh (file_path r) ++ u ": " ++ file_type_value (file_type r)
        ++ u " " ++ test_info
  else DetectionResult_str sh r.

(** The options of [main]. *)
Record Options := {
  verbose : bool;
  quiet : bool;
  test_type_option : str;
  filter_type : list str;
  include_directories : bool;
  max_depth : option Z
}.

Definition is_directory (ft : FileType) : bool :=
  match ft with DIRECTORY => true | _ => false end.

(** [main], the body of the loop for one path of [walk_paths]: the result
    that is displayed, [None] where the loop says [continue], or the
    exception that [detect_file_type] raises, which the [except Exception]
    of the loop catches. *)
Definition too_deep (sh : Shell) (o : Options) (file_path : Path) : bool :=
  match max_depth o with
  | None => false
  | Some depth =>
      match relative_parts sh file_path with
      | Some parts => depth + 1 <? parts
      | None => false                              (* except ValueError *)
      end
  end.

Definition retest (h : Host) (o : Options) (file_path : Path)
  (r : DetectionResult) : option DetectionResult :=
  if negb (str_eqb (test_type_option o) (u "all")) then
    if negb (str_eqb (method_value (test_type r)) (test_type_option o))
    then _run_specific_test h file_path (test_type_option o)
    else Some r
  else Some r.

Definition filtered_out (o : Options) (r : DetectionResult) : bool :=
  match filter_type o with
  | [] => false
  | _ => negb (existsb (str_eqb (file_type_value (file_type r))) (filter_type o))
  end.

Definition process_file (h : Host) (sh : Shell) (o : Options) (file_path : Path)
  : outcome (option DetectionResult) :=
  if too_deep sh o file_path then Returned None
  else
    r <- detect_file_type h file_path ;;
    if is_directory (file_type r) && negb (include_directories o) then
      Returned None
    else
      match retest h o file_path r with
      | None => Returned None
      | Some r' => if filtered_out o r' then Returned None else Returned (Some r')
      end.




(** A shell for the examples: paths are written [parent/name], every path
    lies one part below the working directory. *)
Definition plain_shell : Shell := {|
  path_str := fun p => parent p ++ u "/" ++ name p;
  relative_parts := fun _ => Some 1;
  percent := fun c => (Qnum c * 100) / Z.pos (Qden c)
|}.

Definition default_options : Options := {|
  verbose := false; quiet := false; test_type_option := u "all";
  filter_type := []; include_directories := false; max_depth := None
|}.

(** [fft --test-type language --filter-type "Text file"], and a Python
    file that holds a single call of [print]. *)
Definition language_text_options : Options := {|
  verbose := false; quiet := false; test_type_option := u "language";
  filter_type := [u "Text file"]; include_directories := false;
  max_depth := None
|}.

Definition test_py_host : Host :=
  regular_file "test.py" mode_644 "print('Hello, world!')".

(** The inverse of [file_type_value]: the member with a given value, as
    [FileType(value)] finds it. *)
Definition file_type_of_value (value : str) : option FileType :=
  find (fun ft => str_eqb (file_type_value ft) value) all_file_types.

(** A file of 1 MiB and one byte, all of them the letter a. *)
Definition big_file_host : Host :=
  host_with (tmp "core")
    (Node mode_644 1048577 (Some (repeat x61 (Z.to_nat 1048577)))) None.

(** The include pattern that the C and the C++ category share, and the
    class pattern that the Python and the C++ category share. *)
Definition include_pattern : Pattern :=
  anywhere [lit "#include"; s_star; lit "<"; plus (none_of 62%N); lit ">"].

Definition class_pattern : Pattern :=
  line_start [s_star; lit "class"; s_plus; w_plus].

Definition cpp_host : Host := regular_file "main" mode_644 "std::cout << x;".

(** Where an answer of [detect_file_type] comes from. *)
Inductive detected (h : Host) (p : Path) : DetectionResult -> Prop :=
  | answer_not_found :
      path_exists h p = Returned false ->
      detected h p (result p UNKNOWN FILESYSTEM 1 (Some (u "File not found")))
  | answer_filesystem r :
      path_exists h p = Returned true ->
      _filesystem_tests h p = Some r -> detected h p r
  | answer_magic r :
      path_exists h p = Returned true ->
      _filesystem_tests h p = None ->
      _magic_tests h p = Some r -> detected h p r
  | answer_language r :
      path_exists h p = Returned true ->
      _filesystem_tests h p = None -> _magic_tests h p = None ->
      _language_tests h p = Some r -> detected h p r
  | answer_binary :
      path_exists h p = Returned true ->
      _filesystem_tests h p = None -> _magic_tests h p = None ->
      _language_tests h p = None -> binary_fallback h p = true ->
      detected h p (result p BINARY LANGUAGE (8 # 10)
                       (Some (u "Binary content detected")))
  | answer_default :
      path_exists h p = Returned true ->
      _filesystem_tests h p = None -> _magic_tests h p = None ->
      _language_tests h p = None -> binary_fallback h p = false ->
      detected h p (result p UNKNOWN FILESYSTEM (1 # 10) None).

(** A link that is its own target. *)
Definition self_link_host : Host :=
  host_with (tmp "loop") (Symlink (tmp "loop")) None.

(** The file of [test_language_detection_python], without libmagic and
    with a libmagic that describes it by its MIME type. *)
Definition python_script_host : Host :=
  regular_file "python_script" mode_644 python_script_text.

Definition python_script_magic_host : Host :=
  with_magic python_script_host "text/x-script.python".

(** * Properties *)

(** ** The matcher decides matching *)

Section Matcher.
Variable am : codepoint -> atom -> bool.

Lemma matches_none_inv s : ~ matches am RNone s.
Proof. intros M. inversion M. Qed.

Lemma matches_eps_inv s : matches am REps s -> s = [].
Proof. intros M. now inversion M. Qed.

Lemma matches_atom_inv a s :
  matches am (RAtom a) s -> exists t, s = [t] /\ am t a = true.
Proof. intros M. inversion M; subst. eauto. Qed.

Lemma matches_cat_inv r1 r2 s :
  matches am (RCat r1 r2) s ->
  exists s1 s2, s = s1 ++ s2 /\ matches am r1 s1 /\ matches am r2 s2.
Proof. intros M. inversion M; subst. eauto. Qed.

Lemma matches_alt_inv r1 r2 s :
  matches am (RAlt r1 r2) s -> matches am r1 s \/ matches am r2 s.
Proof. intros M. inversion M; subst; auto. Qed.

Lemma nullable_spec r : nullable r = true <-> matches am r [].
Proof.
  induction r as [| |a|r1 IH1 r2 IH2|r1 IH1 r2 IH2|r IH]; simpl; split;
    try discriminate; try (intros; now constructor).
  - intros M. now apply matches_none_inv in M.
  - intros M. apply matches_atom_inv in M as (t & E & _). discriminate.
  - intros N. apply andb_true_iff in N as [N1 N2].
    change (@nil codepoint) with (@nil codepoint ++ []).
    constructor; [now apply IH1 | now apply IH2].
  - intros M. apply matches_cat_inv in M as (s1 & s2 & E & M1 & M2).
    symmetry in E. apply app_eq_nil in E as [-> ->].
    apply andb_true_iff. split; [now apply IH1 | now apply IH2].
  - intros N. apply orb_true_iff in N as [N|N];
      [apply matches_alt_l; now apply IH1 | apply matches_alt_r; now apply IH2].
  - intros M. apply orb_true_iff.
    apply matches_alt_inv in M as [M|M];
      [left; now apply IH1 | right; now apply IH2].
Qed.

Lemma mk_cat_spec a b s : matches am (mk_cat a b) s <-> matches am (RCat a b) s.
Proof.
  destruct a; simpl; try tauto; split; intros M.
  - now apply matches_none_inv in M.
  - apply matches_cat_inv in M as (s1 & s2 & _ & M1 & _).
    now apply matches_none_inv in M1.
  - change s with ([] ++ s). constructor; [constructor | exact M].
  - apply matches_cat_inv in M as (s1 & s2 & -> & M1 & M2).
    apply matches_eps_inv in M1. now subst.
Qed.

Lemma mk_alt_spec a b s : matches am (mk_alt a b) s <-> matches am (RAlt a b) s.
Proof.
  split.
  - intros M.
    assert (C : matches am a s \/ matches am b s).
    { destruct a, b; simpl in M; auto; now apply matches_alt_inv in M. }
    destruct C; [now apply matches_alt_l | now apply matches_alt_r].
  - intros M. apply matches_alt_inv in M as [M|M].
    + destruct a, b; simpl; try (now apply matches_alt_l); try exact M;
        now apply matches_none_inv in M.
    + destruct a, b; simpl; try (now apply matches_alt_r); try exact M;
        now apply matches_none_inv in M.
Qed.

Lemma star_head r t s :
  matches am (RStar r) (t :: s) ->
  exists s1 s2,
    s = s1 ++ s2 /\ matches am r (t :: s1) /\ matches am (RStar r) s2.
Proof.
  intros M. remember (RStar r) as star eqn:Es. remember (t :: s) as text eqn:Et.
  induction M as [| | | | | |r' s1 s2 M1 _ M2 IH]; try discriminate.
  injection Es as ->. destruct s1 as [|t' s1].
  - apply IH; auto.
  - simpl in Et. injection Et as -> <-. now exists s1, s2.
Qed.

Lemma deriv_spec r t s :
  matches am (deriv (am t) r) s <-> matches am r (t :: s).
Proof.
  revert s. induction r as [| |a|r1 IH1 r2 IH2|r1 IH1 r2 IH2|r IH];
    intros s; simpl.
  - split; intros M; now apply matches_none_inv in M.
  - split; intros M; [now apply matches_none_inv in M|].
    apply matches_eps_inv in M. discriminate.
  - destruct (am t a) eqn:A; split; intros M.
    + apply matches_eps_inv in M. subst. now constructor.
    + apply matches_atom_inv in M as (t' & E & _). injection E as _ ->.
      constructor.
    + now apply matches_none_inv in M.
    + apply matches_atom_inv in M as (t' & E & A'). injection E as <- _.
      congruence.
  - rewrite mk_alt_spec. split; intros M.
    + apply matches_alt_inv in M as [M|M].
      * apply mk_cat_spec, matches_cat_inv in M as (s1 & s2 & -> & M1 & M2).
        apply IH1 in M1. change (t :: s1 ++ s2) with ((t :: s1) ++ s2).
        now constructor.
      * destruct (nullable r1) eqn:N; [|now apply matches_none_inv in M].
        apply nullable_spec in N. apply IH2 in M.
        change (t :: s) with ([] ++ t :: s). now constructor.
    + apply matches_cat_inv in M as (s1 & s2 & E & M1 & M2).
      destruct s1 as [|t' s1].
      * simpl in E. subst. apply matches_alt_r.
        apply nullable_spec in M1. rewrite M1. now apply IH2.
      * simpl in E. injection E as <- ->. apply matches_alt_l.
        apply mk_cat_spec. constructor; [now apply IH1 | exact M2].
  - rewrite mk_alt_spec. split; intros M; apply matches_alt_inv in M as [M|M].
    + apply matches_alt_l. now apply IH1.
    + apply matches_alt_r. now apply IH2.
    + apply matches_alt_l. now apply IH1.
    + apply matches_alt_r. now apply IH2.
  - rewrite mk_cat_spec. split; intros M.
    + apply matches_cat_inv in M as (s1 & s2 & -> & M1 & M2).
      apply IH in M1. change (t :: s1 ++ s2) with ((t :: s1) ++ s2).
      now constructor.
    + apply star_head in M as (s1 & s2 & -> & M1 & M2).
      constructor; [now apply IH | exact M2].
Qed.

End Matcher.

(** [match_prefix] holds exactly when a prefix of the text matches, and
    [re_search] exactly when a substring does that starts a line if the
    pattern is anchored. *)
Lemma match_prefix_spec rt ic r s :
  match_prefix rt ic r s = true <->
  exists s1 s2, s = s1 ++ s2 /\ matches (atom_matches rt ic) r s1.
Proof.
  revert r. induction s as [|t s IH]; intros r; simpl.
  - rewrite orb_false_r, (nullable_spec (atom_matches rt ic)). split.
    + intros M. now exists [], [].
    + intros (s1 & s2 & E & M). symmetry in E.
      apply app_eq_nil in E as [-> _]. exact M.
  - rewrite orb_true_iff, IH, (nullable_spec (atom_matches rt ic)). split.
    + intros [M|(s1 & s2 & -> & M)].
      * now exists [], (t :: s).
      * apply deriv_spec in M. now exists (t :: s1), s2.
    + intros (s1 & s2 & E & M). destruct s1 as [|t' s1].
      * now left.
      * simpl in E. injection E as <- ->. right.
        exists s1, s2. split; [reflexivity|]. now apply deriv_spec.
Qed.

Lemma search_at_unfold rt ic p at_bol s :
  search_at rt ic p at_bol s =
  (implb (bol p) at_bol && match_prefix rt ic (body p) s) ||
  match s with
  | [] => false
  | c :: s' => search_at rt ic p (N.eqb c 10) s'
  end.
Proof. destruct s; reflexivity. Qed.

Lemma search_at_spec rt ic p at_bol s :
  search_at rt ic p at_bol s = true <->
  exists before found after,
    s = before ++ found ++ after /\
    matches (atom_matches rt ic) (body p) found /\
    implb (bol p) (starts_line at_bol before) = true.
Proof.
  revert at_bol. induction s as [|c s IH]; intros at_bol;
    rewrite search_at_unfold, orb_true_iff, andb_true_iff, match_prefix_spec.
  - split.
    + intros [(B & s1 & s2 & E & M)|F]; [|discriminate].
      now exists [], s1, s2.
    + intros (before & found & after & E & M & B).
      destruct before; [|discriminate]. left. split; [exact B|].
      now exists found, after.
  - rewrite IH. split.
    + intros [(B & s1 & s2 & E & M)|(before & found & after & -> & M & B)].
      * now exists [], s1, s2.
      * exists (c :: before), found, after. repeat split; auto.
        destruct before; exact B.
    + intros (before & found & after & E & M & B).
      destruct before as [|c' before].
      * left. split; [exact B|]. now exists found, after.
      * simpl in E. injection E as <- ->. right.
        exists before, found, after. repeat split; auto.
        destruct before; exact B.
Qed.

Lemma re_search_spec rt ic p s :
  re_search rt ic p s = true <->
  exists before found after,
    s = before ++ found ++ after /\
    matches (atom_matches rt ic) (body p) found /\
    implb (bol p) (starts_line true before) = true.
Proof. apply search_at_spec. Qed.

(** ** Strings and tables *)

Lemma str_eqb_eq (a b : str) : str_eqb a b = true <-> a = b.
Proof.
  revert b; induction a as [|x a IH]; intros [|y b]; simpl; split;
    try congruence; try reflexivity.
  - intros H. apply andb_true_iff in H as [Hx Hab].
    apply N.eqb_eq in Hx. apply IH in Hab. congruence.
  - intros H. injection H as -> ->.
    rewrite N.eqb_refl. simpl. now apply IH.
Qed.

Lemma str_eqb_refl (a : str) : str_eqb a a = true.
Proof. now apply str_eqb_eq. Qed.

Lemma startswith_app (p s : str) : startswith p (p ++ s) = true.
Proof.
  induction p as [|x p IH]; simpl; [reflexivity|].
  now rewrite N.eqb_refl.
Qed.

Lemma str_in_app (p s : str) : str_in p (p ++ s) = true.
Proof.
  destruct (p ++ s) eqn:E; simpl; rewrite <- E, startswith_app; reflexivity.
Qed.

Lemma dict_mem_get {V} (d : dict str V) (k : str) :
  dict_mem d k = true <-> exists v, dict_get d k = Some v.
Proof.
  unfold dict_mem. destruct (dict_get d k) as [v|]; split.
  - intros _. now exists v.
  - reflexivity.
  - discriminate.
  - intros [v Hv]. discriminate.
Qed.

(** The keys of each dictionary literal are distinct, so reading the
    literal as a list in source order loses nothing. *)
Lemma tables_have_distinct_keys :
  distinct (keys _build_extension_map) = true /\
  distinct (keys _build_shebang_map) = true /\
  distinct (keys magic_mappings) = true.
Proof. repeat split; vm_compute; reflexivity. Qed.

(** ** Symbolic links *)

Lemma follow_unfold f hops p :
  follow f hops p =
  match f p with
  | None => None
  | Some (Node m s d) => Some (mkStat m s, d)
  | Some (Symlink t) =>
      match hops with O => None | S k => follow f k t end
  end.
Proof. destruct hops; reflexivity. Qed.

Lemma follow_more_hops f k p r :
  follow f k p = Some r -> follow f (S k) p = Some r.
Proof.
  revert p. induction k as [|k IH]; intros p;
    rewrite (follow_unfold f (S _) p), (follow_unfold f _ p);
    destruct (f p) as [[t|m s d]|]; try congruence.
  apply IH.
Qed.

Lemma follow_fewer_hops f k p :
  follow f (S k) p = None -> follow f k p = None.
Proof.
  intros H. destruct (follow f k p) as [r|] eqn:E; [|reflexivity].
  apply follow_more_hops in E. congruence.
Qed.

Lemma follow_errno_unfold f e hops p :
  follow_errno f e hops p =
  match f p with
  | None => e p
  | Some (Node _ _ _) => 0
  | Some (Symlink t) =>
      match hops with O => ELOOP | S k => follow_errno f e k t end
  end.
Proof. destruct hops; reflexivity. Qed.

(** With one link less to follow, a failing [stat] fails with the same
    error or with [ELOOP]. *)
Lemma follow_errno_fewer_hops f e k p :
  follow f (S k) p = None ->
  follow_errno f e k p = follow_errno f e (S k) p \/ follow_errno f e k p = ELOOP.
Proof.
  revert p. induction k as [|k IH]; intros p;
    rewrite (follow_unfold f (S _) p), (follow_errno_unfold f e (S _) p),
      (follow_errno_unfold f e _ p);
    destruct (f p) as [[t|m s d]|]; auto.
Qed.

Lemma path_exists_false h p :
  path_exists h p = Returned false <->
  path_stat h p = None /\ _ignore_error (stat_error h p) = true.
Proof.
  unfold path_exists. destruct (path_stat h p) as [st|].
  - split; [discriminate | intros [E _]; discriminate].
  - destruct (_ignore_error (stat_error h p)); cbn [negb]; split;
      try discriminate; auto.
    intros [_ E]. discriminate.
Qed.


Lemma path_stat_follow h p :
  path_stat h p = None <-> follow (fs h) MAXSYMLINKS p = None.
Proof.
  unfold path_stat.
  destruct (follow (fs h) MAXSYMLINKS p); simpl; split; congruence.
Qed.

Lemma symlink_exists_target h p t :
  fs h p = Some (Symlink t) ->
  path_exists h t = Returned false -> path_exists h p = Returned false.
Proof.
  intros Hp Ht. apply path_exists_false. apply path_exists_false in Ht.
  destruct Ht as [St Ig]. apply path_stat_follow in St.
  unfold stat_error in *. unfold MAXSYMLINKS in *. split.
  - apply path_stat_follow. unfold MAXSYMLINKS.
    rewrite follow_unfold, Hp. now apply follow_fewer_hops.
  - rewrite follow_errno_unfold, Hp.
    destruct (follow_errno_fewer_hops (fs h) (lookup_errno h) _ t St) as [-> | ->];
      [exact Ig | reflexivity].
Qed.

(** ** What each stage can answer *)

Ltac break_match_hyp :=
  match goal with
  | H : context [match ?x with _ => _ end] |- _ => destruct x eqn:?
  end.

Ltac inv_some :=
  repeat match goal with
  | H : Some _ = Some _ |- _ => injection H as H; try subst
  | H : None = Some _ |- _ => discriminate H
  | H : Some _ = None |- _ => discriminate H
  end.

Lemma dict_get_in {V} (d : dict str V) k v :
  dict_get d k = Some v -> In (k, v) d.
Proof.
  induction d as [|[k' v'] d IH]; simpl; [discriminate|].
  destruct (str_eqb k' k) eqn:E.
  - intros H. injection H as ->. apply str_eqb_eq in E. subst. now left.
  - intros H. right. now apply IH.
Qed.

(** The executable rule asks for one of four suffixes, and the extension
    table has none of them. *)
Lemma executable_suffixes_unmapped (s : str) :
  existsb (str_eqb s) executable_suffixes = true ->
  dict_get _build_extension_map s = None.
Proof.
  unfold executable_suffixes. simpl. rewrite !orb_true_iff.
  intros [H|[H|[H|[H|H]]]]; try discriminate;
    apply str_eqb_eq in H; subst; vm_compute; reflexivity.
Qed.

Lemma executable_check_none h file_stat p :
  executable_check h file_stat p = None.
Proof.
  unfold executable_check.
  destruct (negb _); [|reflexivity].
  destruct (existsb _ _) eqn:Ex; [|reflexivity].
  now rewrite (executable_suffixes_unmapped _ Ex).
Qed.

Lemma _filesystem_tests_cases h p r :
  _filesystem_tests h p = Some r ->
  r = result p DIRECTORY FILESYSTEM 1 None \/
  r = result p SYMLINK FILESYSTEM 1 None \/
  r = result p EMPTY FILESYSTEM 1 None \/
  exists s ft,
    dict_get _build_extension_map s = Some ft /\
    r = result p ft FILESYSTEM (8 # 10) (extension_details s).
Proof.
  unfold _filesystem_tests. intros H.
  destruct (path_stat h p) as [file_stat|]; [|discriminate].
  destruct (S_ISDIR (st_mode file_stat)); [inv_some; auto|].
  destruct (is_symlink h p); [inv_some; auto|].
  destruct (st_size file_stat =? 0); [inv_some; auto|].
  do 3 right. rewrite executable_check_none in H.
  unfold multiple_extensions_check, single_extension_check in H.
  repeat break_match_hyp; inv_some; eauto.
Qed.

Lemma magic_scan_cases items magic_lower magic_result p r :
  magic_scan items magic_lower magic_result p = Some r ->
  exists pattern ft,
    In (pattern, ft) items /\
    r = result p ft MAGIC (9 # 10) (magic_details magic_result).
Proof.
  induction items as [|[pattern ft] items IH]; simpl; [discriminate|].
  destruct (str_in pattern magic_lower).
  - intros H. inv_some. exists pattern, ft. auto.
  - intros H. destruct (IH H) as (pat' & ft' & Hin & Hr). eauto.
Qed.

Lemma _magic_tests_cases h p r :
  _magic_tests h p = Some r ->
  exists magic_result,
    (exists pattern ft,
        In (pattern, ft) magic_mappings /\
        r = result p ft MAGIC (9 # 10) (magic_details magic_result)) \/
    r = result p TEXT MAGIC (6 # 10) (magic_details magic_result) \/
    r = result p BINARY MAGIC (7 # 10) (magic_details magic_result).
Proof.
  unfold _magic_tests. intros H.
  destruct (magic h) as [from_file|]; [|discriminate].
  destruct (from_file p) as [magic_result|]; [|discriminate].
  exists magic_result.
  destruct (magic_scan _ _ _ _) as [r'|] eqn:Scan.
  - inv_some. left. eapply magic_scan_cases. eassumption.
  - repeat break_match_hyp; inv_some; auto.
Qed.

Lemma shebang_scan_cases items shebang p r :
  shebang_scan items shebang p = Some r ->
  exists pattern ft,
    In (pattern, ft) items /\
    r = result p ft LANGUAGE (9 # 10) (Some (u "Shebang: " ++ shebang)).
Proof.
  induction items as [|[pattern ft] items IH]; simpl; [discriminate|].
  destruct (str_in pattern shebang).
  - intros H. inv_some. exists pattern, ft. auto.
  - intros H. destruct (IH H) as (pat' & ft' & Hin & Hr). eauto.
Qed.

Lemma pattern_scan_cases h catalog content p r :
  pattern_scan h catalog content p = Some r ->
  exists ft patterns,
    In (ft, patterns) catalog /\
    3 <= fst (score_patterns h content patterns) /\
    r = result p ft LANGUAGE
          (Qmin (fst (score_patterns h content patterns) # 10) 1)
          (pattern_details (snd (score_patterns h content patterns))).
Proof.
  induction catalog as [|[ft patterns] catalog IH]; simpl; [discriminate|].
  destruct (score_patterns h content patterns) as [score matches] eqn:E.
  destruct (3 <=? score) eqn:T.
  - intros H. inv_some. exists ft, patterns. rewrite E. simpl.
    apply Z.leb_le in T. auto.
  - intros H. destruct (IH H) as (ft' & pats' & Hin & Hs & Hr). eauto 6.
Qed.

Lemma generic_text_cases h content p r :
  generic_text h content p = Some r ->
  r = result p JSON LANGUAGE (8 # 10) (Some (u "Valid JSON structure")) \/
  r = result p YAML LANGUAGE (7 # 10) (Some (u "YAML-like structure")) \/
  r = result p CSV LANGUAGE (7 # 10) (Some (u "CSV-like structure")) \/
  r = result p TEXT LANGUAGE (6 # 10) None.
Proof.
  unfold generic_text, text_tail. intros H.
  repeat break_match_hyp; inv_some; auto.
Qed.

(** ** The content reader *)

Lemma decode_first_total (content_bytes : bytes) :
  exists content, decode_first encodings content_bytes = Some content.
Proof.
  unfold encodings. simpl.
  destruct (decode_utf8 content_bytes) as [s|]; [now exists s|].
  destruct (decode_utf8_sig content_bytes) as [s|]; [now exists s|].
  unfold decode_latin1. eauto.
Qed.

Lemma read_bytes_none_any h p n :
  read_bytes h p n = None <-> read_bytes h p None = None.
Proof.
  unfold read_bytes.
  destruct (follow (fs h) MAXSYMLINKS p) as [[st [d|]]|]; split; congruence.
Qed.

Lemma stat_fails_read_fails h p n :
  path_stat h p = None -> read_bytes h p n = None.
Proof.
  unfold path_stat, read_bytes.
  destruct (follow (fs h) MAXSYMLINKS p) as [[st [d|]]|]; simpl; congruence.
Qed.

Lemma _read_file_safely_none h p :
  _read_file_safely h p = None <-> read_bytes h p None = None.
Proof.
  unfold _read_file_safely. split.
  - destruct (path_stat h p) as [st|] eqn:St.
    + destruct (max_size <? st_size st).
      * destruct (read_bytes h p (Some 8192)) as [bs|] eqn:R.
        -- destruct (decode_first_total bs) as [c Hc]. congruence.
        -- intros _. now apply (read_bytes_none_any h p (Some 8192)).
      * destruct (read_bytes h p None) as [bs|] eqn:R; [|reflexivity].
        destruct (decode_first_total bs) as [c Hc]. congruence.
    + intros _. now apply stat_fails_read_fails.
  - intros R. destruct (path_stat h p) as [st|]; [|reflexivity].
    rewrite R. apply (read_bytes_none_any h p (Some 8192)) in R. rewrite R.
    now destruct (max_size <? st_size st).
Qed.

Lemma _language_tests_cases h p r :
  _language_tests h p = Some r -> language_answer h p r.
Proof.
  unfold _language_tests. intros H.
  destruct (_read_file_safely h p) as [content|] eqn:R.
  - destruct (shebang_check h content p) as [r'|] eqn:Sb.
    + inv_some. unfold shebang_check in Sb.
      destruct (split 10%N content) as [|line0 rest]; [discriminate|].
      destruct (startswith (u "#!") line0); [|discriminate].
      apply shebang_scan_cases in Sb as (pat & ft & Hin & ->).
      eapply answer_shebang; eassumption.
    + destruct (pattern_scan h _build_language_patterns content p) as [r'|] eqn:Ps.
      * inv_some. apply pattern_scan_cases in Ps as (ft & pats & Hin & Hs & ->).
        now apply answer_patterns.
      * apply generic_text_cases in H as [->|[->|[->| ->]]]; constructor.
  - inv_some. apply answer_non_text. now apply _read_file_safely_none.
Qed.

(** ** The pipeline *)

Lemma node_stat h p mode size data :
  fs h p = Some (Node mode size data) ->
  follow (fs h) MAXSYMLINKS p = Some (mkStat mode size, data).
Proof. intros H. now rewrite follow_unfold, H. Qed.

Lemma read_failure_reported_binary h p :
  read_bytes h p None = None ->
  _language_tests h p =
    Some (result p BINARY LANGUAGE (8 # 10) (Some (u "Non-text content"))).
Proof.
  intros R. apply _read_file_safely_none in R.
  unfold _language_tests. now rewrite R.
Qed.

(** No table names [UNKNOWN]. *)
Lemma tables_never_unknown :
  forallb (fun e => negb (is_unknown (snd e))) _build_extension_map = true /\
  forallb (fun e => negb (is_unknown (snd e))) _build_shebang_map = true /\
  forallb (fun e => negb (is_unknown (snd e))) magic_mappings = true /\
  forallb (fun e => negb (is_unknown (fst e))) _build_language_patterns = true.
Proof. repeat split; vm_compute; reflexivity. Qed.

Lemma in_not_unknown {A} (proj : A -> FileType) (l : list A) (e : A) :
  forallb (fun e => negb (is_unknown (proj e))) l = true ->
  In e l -> proj e <> UNKNOWN.
Proof.
  intros F Hin E. rewrite forallb_forall in F. specialize (F e Hin).
  rewrite E in F. discriminate.
Qed.

Ltac known_type :=
  match goal with
  | H : In (?a, ?b) _build_extension_map |- _ =>
      apply (in_not_unknown snd _ _ (proj1 tables_never_unknown)) in H
  | H : In (?a, ?b) _build_shebang_map |- _ =>
      apply (in_not_unknown snd _ _ (proj1 (proj2 tables_never_unknown))) in H
  | H : In (?a, ?b) magic_mappings |- _ =>
      apply (in_not_unknown snd _ _
               (proj1 (proj2 (proj2 tables_never_unknown)))) in H
  | H : In (?a, ?b) _build_language_patterns |- _ =>
      apply (in_not_unknown fst _ _
               (proj2 (proj2 (proj2 tables_never_unknown)))) in H
  end.

Lemma valid_confidence_literal (n : Z) :
  0 < n <= 10 -> valid_confidence (n # 10).
Proof.
  intros [Hlo Hhi]. split.
  - unfold Qlt. simpl. lia.
  - unfold Qle. simpl. lia.
Qed.

Lemma valid_confidence_one : valid_confidence 1.
Proof. split; [reflexivity | apply Qle_refl]. Qed.

Lemma valid_confidence_score (score : Z) :
  3 <= score -> valid_confidence (Qmin (score # 10) 1).
Proof.
  intros H. split.
  - apply Q.min_glb_lt; [unfold Qlt; simpl; lia | reflexivity].
  - apply Q.le_min_r.
Qed.

Lemma _filesystem_tests_confidence h p r :
  _filesystem_tests h p = Some r -> valid_confidence (confidence r).
Proof.
  intros H. apply _filesystem_tests_cases in H
    as [->|[->|[->|(s & ft & _ & ->)]]]; simpl;
    try apply valid_confidence_one.
  apply valid_confidence_literal. lia.
Qed.

Lemma _magic_tests_confidence h p r :
  _magic_tests h p = Some r -> valid_confidence (confidence r).
Proof.
  intros H. apply _magic_tests_cases in H
    as (m & [(pat & ft & _ & ->)|[->| ->]]); simpl;
    apply valid_confidence_literal; lia.
Qed.

Lemma _language_tests_confidence h p r :
  _language_tests h p = Some r -> valid_confidence (confidence r).
Proof.
  intros H. apply _language_tests_cases in H. destruct H; simpl;
    try (apply valid_confidence_literal; lia).
  now apply valid_confidence_score.
Qed.

(** ** The outcomes of [detect_file_type] *)

Lemma detect_existing h p :
  path_exists h p = Returned true ->
  detect_file_type h p =
    match _filesystem_tests h p with
    | Some r => Returned r
    | None =>
        match _magic_tests h p with
        | Some r => Returned r
        | None =>
            match _language_tests h p with
            | Some r => Returned r
            | None =>
                if binary_fallback h p then
                  Returned (result p BINARY LANGUAGE (8 # 10)
                              (Some (u "Binary content detected")))
                else Returned (result p UNKNOWN FILESYSTEM (1 # 10) None)
            end
        end
    end.
Proof. intros E. unfold detect_file_type. now rewrite E. Qed.

Lemma not_found_answer h p :
  path_exists h p = Returned false ->
  detect_file_type h p =
    Returned (result p UNKNOWN FILESYSTEM 1 (Some (u "File not found"))).
Proof.
  intros E. unfold detect_file_type. now rewrite E.
Qed.

Lemma detect_raised h p e :
  detect_file_type h p = Raised e <-> path_exists h p = Raised e.
Proof.
  unfold detect_file_type.
  destruct (path_exists h p) as [[|]|e']; cbn [bind negb].
  - split; [|discriminate].
    destruct (_filesystem_tests h p); [discriminate|].
    destruct (_magic_tests h p); [discriminate|].
    destruct (_language_tests h p); [discriminate|].
    destruct (binary_fallback h p); discriminate.
  - split; discriminate.
  - split; intros R; injection R as ->; reflexivity.
Qed.

Lemma detect_file_type_cases h p r :
  detect_file_type h p = Returned r -> detected h p r.
Proof.
  destruct (path_exists h p) as [[|]|e] eqn:E.
  - rewrite (detect_existing _ _ E).
    destruct (_filesystem_tests h p) as [r1|] eqn:F.
    { intros R. injection R as <-. now apply answer_filesystem. }
    destruct (_magic_tests h p) as [r2|] eqn:M.
    { intros R. injection R as <-. now apply answer_magic. }
    destruct (_language_tests h p) as [r3|] eqn:L.
    { intros R. injection R as <-. now apply answer_language. }
    destruct (binary_fallback h p) eqn:B; intros R; injection R as <-.
    + now apply answer_binary.
    + now apply answer_default.
  - rewrite (not_found_answer _ _ E). intros R. injection R as <-.
    now apply answer_not_found.
  - apply detect_raised in E. congruence.
Qed.

(** ** Paths that do not exist *)

(** C7, on the code.  A path whose name is longer than the file system
    allows does not exist: it has no entry and [stat] fails, with
    [ENAMETOOLONG].  That is not one of the errors that [Path.exists]
    answers with [False], so the existence check raises the [OSError], and
    [detect_file_type], which calls it outside every [try], raises it too,
    where the answer "File not found" is expected. *)
Theorem overlong_path_raises :
  fs overlong_host overlong_path = None /\
  path_stat overlong_host overlong_path = None /\
  stat_error overlong_host overlong_path = OSError ENAMETOOLONG /\
  _ignore_error (OSError ENAMETOOLONG) = false /\
  path_exists overlong_host overlong_path = Raised (OSError ENAMETOOLONG) /\
  detect_file_type overlong_host overlong_path = Raised (OSError ENAMETOOLONG) /\
  (forall r, detect_file_type overlong_host overlong_path <> Returned r).
Proof.
  repeat split; try (vm_compute; reflexivity).
  intros r D. vm_compute in D. discriminate D.
Qed.

(** C10, on the code.  A symbolic link whose target has a name longer than
    the file system allows is a dangling link: [is_symlink] holds of it
    and its target has no entry.  The existence check follows the link,
    [stat] fails with [ENAMETOOLONG], and [detect_file_type] raises the
    [OSError] where the answer "File not found" is expected. *)
Theorem dangling_link_to_overlong_target_raises :
  fs overlong_link_host (tmp "link") = Some (Symlink overlong_path) /\
  is_symlink overlong_link_host (tmp "link") = true /\
  fs overlong_link_host overlong_path = None /\
  path_stat overlong_link_host overlong_path = None /\
  path_exists overlong_link_host (tmp "link") = Raised (OSError ENAMETOOLONG) /\
  detect_file_type overlong_link_host (tmp "link") =
    Raised (OSError ENAMETOOLONG).
Proof. repeat split; vm_compute; reflexivity. Qed.

(** ** The executable rule *)

Ltac differs :=
  first [ discriminate
        | let E := fresh "E" in intros E; vm_compute in E; discriminate E ].

(** C9.  [detect_file_type] never answers with the explanation
    "Executable file": the rule wants the suffix to be one of .exe, .dll,
    .so, .app and to be a key of the extension table, which has none of the
    four; the filesystem stage therefore never answers with confidence
    0.9 either. *)
Theorem executable_rule_unreachable (h : Host) (p : Path) :
  (forall r, detect_file_type h p = Returned r ->
             details r <> Some (u "Executable file")) /\
  (forall file_stat, executable_check h file_stat p = None) /\
  (forall r, _filesystem_tests h p = Some r -> confidence r <> (9 # 10)%Q) /\
  Forall (fun s => dict_mem _build_extension_map s = false) executable_suffixes.
Proof.
  repeat split.
  - intros r D. apply detect_file_type_cases in D.
    destruct D as [E|r E F|r E F M|r E F M L|E F M L B|E F M L B].
    + differs.
    + apply _filesystem_tests_cases in F
        as [->|[->|[->|(s & ft & _ & ->)]]];
        unfold extension_details; simpl; differs.
    + apply _magic_tests_cases in M
        as (m & [(pat & ft & _ & ->)|[->| ->]]);
        unfold magic_details; simpl; differs.
    + apply _language_tests_cases in L. destruct L;
        unfold pattern_details; simpl; differs.
    + simpl; differs.
    + simpl; differs.
  - intros file_stat. apply executable_check_none.
  - intros r F. apply _filesystem_tests_cases in F
      as [->|[->|[->|(s & ft & _ & ->)]]]; simpl; discriminate.
  - unfold executable_suffixes. repeat constructor.
Qed.

(** ** Confidence *)

(** C4.  Every answer of [detect_file_type] has a confidence in (0, 1];
    and when an existing path is answered UNKNOWN, the answer is the final
    fallback: stage FILESYSTEM, confidence 0.1, no explanation. *)
Theorem confidence_in_unit_interval (h : Host) (p : Path) (r : DetectionResult) :
  detect_file_type h p = Returned r ->
  valid_confidence (confidence r) /\
  (path_exists h p = Returned true ->
   file_type r = UNKNOWN ->
   r = result p UNKNOWN FILESYSTEM (1 # 10) None).
Proof.
  intros D. apply detect_file_type_cases in D. split.
  - destruct D as [E|r E F|r E F M|r E F M L|E F M L B|E F M L B].
    + apply valid_confidence_one.
    + now apply _filesystem_tests_confidence in F.
    + now apply _magic_tests_confidence in M.
    + now apply _language_tests_confidence in L.
    + simpl; apply valid_confidence_literal; lia.
    + simpl; apply valid_confidence_literal; lia.
  - intros Ex. destruct D as [E|r E F|r E F M|r E F M L|E F M L B|E F M L B].
    + congruence.
    + apply _filesystem_tests_cases in F
        as [->|[->|[->|(s & ft & G & ->)]]]; simpl; try discriminate.
      apply dict_get_in in G. known_type. simpl in G. congruence.
    + apply _magic_tests_cases in M
        as (m & [(pat & ft & G & ->)|[->| ->]]); simpl; try discriminate.
      known_type. simpl in G. congruence.
    + apply _language_tests_cases in L. destruct L; simpl; try discriminate;
        known_type; simpl in *; congruence.
    + simpl. discriminate.
    + reflexivity.
Qed.

Lemma confidence_in_unit_interval_witness :
  detect_file_type blob_host (tmp "blob") =
    Returned (result (tmp "blob") UNKNOWN FILESYSTEM (1 # 10) None) /\
  valid_confidence (1 # 10).
Proof.
  assert (D : detect_file_type blob_host (tmp "blob") =
              Returned (result (tmp "blob") UNKNOWN FILESYSTEM (1 # 10) None))
    by (vm_compute; reflexivity).
  split; [exact D|].
  exact (proj1 (confidence_in_unit_interval blob_host (tmp "blob") _ D)).
Defined.

(** ** Decoding never fails *)

(** C8.  The encoding cascade decodes every byte sequence, because Latin-1
    does; so [_read_file_safely] returns [None] exactly when reading the
    file raises [OSError], and the content stage answers "Non-text content"
    for no file that can be read. *)
Theorem reader_fails_only_on_os_error (h : Host) (p : Path) :
  (forall content_bytes,
      In decode_latin1 encodings /\
      decode_latin1 content_bytes = Some (map Byte.to_N content_bytes) /\
      exists content, decode_first encodings content_bytes = Some content) /\
  (_read_file_safely h p = None <-> read_bytes h p None = None) /\
  (_language_tests h p =
     Some (result p BINARY LANGUAGE (8 # 10) (Some (u "Non-text content"))) ->
   read_bytes h p None = None).
Proof.
  repeat split.
  - simpl. auto.
  - apply decode_first_total.
  - apply _read_file_safely_none.
  - apply _read_file_safely_none.
  - intros L. apply _language_tests_cases in L.
    inversion L as [R| pat ft sb Hin E | ft pats c Hin Hs E | | | | ];
      try assumption; exfalso; revert E; unfold pattern_details; differs.
Qed.

Lemma reader_fails_only_on_os_error_witness :
  read_bytes unreadable_host (tmp "notes") None = None.
Proof.
  apply (reader_fails_only_on_os_error unreadable_host (tmp "notes")).
  reflexivity.
Defined.

(** ** A file that cannot be read *)

(** C2, on the code.  For a regular, non-empty file without a known
    extension that the process may not read, the content stage does give an
    answer: BINARY, confidence 0.8, "Non-text content", and
    [detect_file_type] returns it; the final fallback is not reached. *)
Theorem unreadable_file_reported_binary :
  read_bytes unreadable_host (tmp "notes") None = None /\
  _filesystem_tests unreadable_host (tmp "notes") = None /\
  _magic_tests unreadable_host (tmp "notes") = None /\
  _language_tests unreadable_host (tmp "notes") =
    Some (result (tmp "notes") BINARY LANGUAGE (8 # 10)
            (Some (u "Non-text content"))) /\
  detect_file_type unreadable_host (tmp "notes") =
    Returned (result (tmp "notes") BINARY LANGUAGE (8 # 10)
                (Some (u "Non-text content"))).
Proof. repeat split; vm_compute; reflexivity. Qed.

(** ** Weighted pattern scoring *)

Lemma score_fold h content patterns score matches :
  fold_left (score_step h content) patterns (score, matches) =
  (score + weight_sum (matching h content patterns),
   matches ++ map fst (matching h content patterns)).
Proof.
  revert score matches.
  induction patterns as [|[pattern weight] patterns IH]; intros score matches.
  - simpl. now rewrite Z.add_0_r, app_nil_r.
  - simpl. destruct (re_search (rt h) true pattern content); rewrite IH.
    + simpl. unfold weight_sum. simpl. rewrite <- app_assoc. f_equal. lia.
    + reflexivity.
Qed.

(** The loop over one category leaves in [score] the sum of the weights of
    the matching patterns and in [matches] those patterns, in order. *)
Lemma score_patterns_spec h content patterns :
  score_patterns h content patterns =
  (weight_sum (matching h content patterns),
   map fst (matching h content patterns)).
Proof. unfold score_patterns. now rewrite score_fold. Qed.

Lemma pattern_scan_first h catalog content p :
  match pattern_scan h catalog content p with
  | Some r =>
      exists before ft patterns after,
        catalog = before ++ (ft, patterns) :: after /\
        Forall (fun e => weight_sum (matching h content (snd e)) < 3) before /\
        3 <= weight_sum (matching h content patterns) /\
        r = result p ft LANGUAGE
              (Qmin (weight_sum (matching h content patterns) # 10) 1)
              (Some (u "Language patterns: "
                     ++ str_of_nat (length (matching h content patterns))
                     ++ u " matches"))
  | None =>
      Forall (fun e => weight_sum (matching h content (snd e)) < 3) catalog
  end.
Proof.
  induction catalog as [|[ft patterns] catalog IH]; simpl; [constructor|].
  rewrite score_patterns_spec.
  destruct (3 <=? weight_sum (matching h content patterns)) eqn:T.
  - apply Z.leb_le in T.
    exists [], ft, patterns, catalog. repeat split; auto.
    unfold pattern_details. now rewrite length_map.
  - apply Z.leb_gt in T.
    destruct (pattern_scan h catalog content p) as [r|].
    + destruct IH as (before & ft' & pats' & after & -> & Hb & Hs & ->).
      exists ((ft, patterns) :: before), ft', pats', after.
      repeat split; auto.
    + constructor; auto.
Qed.

(** C1.  The pattern scoring of the content stage walks the catalog in its
    order; the score of a category is the sum of the weights of its patterns
    that match the text (multiline, ignoring case).  The answer is the first
    category whose score is at least 3: every category before it scores
    less, its confidence is min(score / 10, 1.0) and its explanation names
    the number of matching patterns; there is no answer exactly when every
    category scores less than 3.  The content stage returns that answer for
    every text that the reader delivers and whose shebang check does not
    answer. *)
Theorem pattern_scoring_first_past_threshold (h : Host) (p : Path) (content : str) :
  match pattern_scan h _build_language_patterns content p with
  | Some r =>
      (exists before ft patterns after,
        _build_language_patterns = before ++ (ft, patterns) :: after /\
        Forall (fun e => weight_sum (matching h content (snd e)) < 3) before /\
        3 <= weight_sum (matching h content patterns) /\
        r = result p ft LANGUAGE
              (Qmin (weight_sum (matching h content patterns) # 10) 1)
              (Some (u "Language patterns: "
                     ++ str_of_nat (length (matching h content patterns))
                     ++ u " matches"))) /\
      (_read_file_safely h p = Some content ->
       shebang_check h content p = None ->
       _language_tests h p = Some r)
  | None =>
      Forall (fun e => weight_sum (matching h content (snd e)) < 3)
        _build_language_patterns
  end.
Proof.
  pose proof (pattern_scan_first h _build_language_patterns content p) as F.
  destruct (pattern_scan h _build_language_patterns content p) as [r|] eqn:S;
    [|exact F].
  split; [exact F|].
  intros R Sb. unfold _language_tests. now rewrite R, Sb, S.
Qed.

(** The witness of C1: a text on which both the Python and the Java
    category reach the threshold; Python comes first in the catalog. *)
Lemma pattern_scoring_first_past_threshold_witness :
  3 <= weight_sum (matching import_host (u "import java.util.List;") python_patterns) /\
  3 <= weight_sum (matching import_host (u "import java.util.List;") java_patterns) /\
  _language_tests import_host (tmp "Main") =
    Some (result (tmp "Main") PYTHON LANGUAGE (3 # 10)
            (Some (u "Language patterns: 1 matches"))).
Proof.
  split; [vm_compute; discriminate|].
  split; [vm_compute; discriminate|].
  pose proof (pattern_scoring_first_past_threshold import_host (tmp "Main")
                (u "import java.util.List;")) as T.
  assert (S : pattern_scan import_host _build_language_patterns
                (u "import java.util.List;") (tmp "Main") =
              Some (result (tmp "Main") PYTHON LANGUAGE (3 # 10)
                      (Some (u "Language patterns: 1 matches"))))
    by (vm_compute; reflexivity).
  rewrite S in T. destruct T as [_ T].
  apply T; vm_compute; reflexivity.
Defined.

(** ** The text [print('hi')] *)

Lemma print_hi_decoded :
  decode_first encodings (list_byte_of_string "print('hi')") = Some print_hi.
Proof. reflexivity. Qed.

Lemma print_hi_python_score h :
  score_patterns h print_hi python_patterns =
  (2, [anywhere [lit "print"; s_star; lit "("]]).
Proof. vm_compute. reflexivity. Qed.

Lemma print_hi_no_category h p :
  pattern_scan h _build_language_patterns print_hi p = None.
Proof. vm_compute. reflexivity. Qed.

Lemma print_hi_generic_text h p :
  shebang_check h print_hi p = None /\
  generic_text h print_hi p = Some (result p TEXT LANGUAGE (6 # 10) None).
Proof. split; vm_compute; reflexivity. Qed.

(** ** Reaching the content stage *)

Lemma regular_not_directory mode : S_ISREG mode = true -> S_ISDIR mode = false.
Proof.
  unfold S_ISREG, S_ISDIR. intros H. apply Z.eqb_eq in H. now rewrite H.
Qed.

Lemma node_exists h p mode size data :
  fs h p = Some (Node mode size data) -> path_exists h p = Returned true.
Proof.
  intros H. unfold path_exists, path_stat. now rewrite (node_stat _ _ _ _ _ H).
Qed.

Lemma node_filesystem_tests h p mode size data :
  fs h p = Some (Node mode size data) ->
  S_ISDIR mode = false ->
  size <> 0 ->
  _filesystem_tests h p =
    match multiple_extensions_check h p with
    | Some r => Some r
    | None => single_extension_check h p
    end.
Proof.
  intros H D Z. unfold _filesystem_tests, path_stat, is_symlink.
  rewrite (node_stat _ _ _ _ _ H), H. simpl. rewrite D.
  apply Z.eqb_neq in Z. rewrite Z. now rewrite executable_check_none.
Qed.

Lemma node_read_file_safely h p mode size content_bytes :
  fs h p = Some (Node mode size (Some content_bytes)) ->
  _read_file_safely h p =
    decode_first encodings
      (if max_size <? size then firstn (Z.to_nat 8192) content_bytes
       else content_bytes).
Proof.
  intros H. unfold _read_file_safely, path_stat, read_bytes.
  rewrite (node_stat _ _ _ _ _ H). cbn [option_map fst st_size].
  destruct (max_size <? size); reflexivity.
Qed.

Lemma content_stage_decides h p mode size data r :
  fs h p = Some (Node mode size data) ->
  S_ISDIR mode = false ->
  size <> 0 ->
  multiple_extensions_check h p = None ->
  single_extension_check h p = None ->
  _magic_tests h p = None ->
  _language_tests h p = Some r ->
  detect_file_type h p = Returned r.
Proof.
  intros H D Z Mu Si Ma La.
  rewrite (detect_existing _ _ (node_exists _ _ _ _ _ H)).
  rewrite (node_filesystem_tests _ _ _ _ _ H D Z), Mu, Si, Ma, La.
  reflexivity.
Qed.

(** C3, as the code has it.  For a regular file that holds exactly
    [print('hi')], whose name has no suffix known to the extension table
    and for which the signature stage gives no answer: the Python patterns
    score 2 (the print-call pattern alone matches), no category reaches the
    threshold of 3, and [detect_file_type] answers TEXT through the content
    stage with confidence 0.6. *)
Theorem print_hi_is_plain_text (h : Host) (p : Path) (mode : Z) :
  fs h p = Some (Node mode 11 (Some (list_byte_of_string "print('hi')"))) ->
  S_ISREG mode = true ->
  multiple_extensions_check h p = None ->
  single_extension_check h p = None ->
  _magic_tests h p = None ->
  shebang_check h print_hi p = None /\
  score_patterns h print_hi python_patterns =
    (2, [anywhere [lit "print"; s_star; lit "("]]) /\
  pattern_scan h _build_language_patterns print_hi p = None /\
  detect_file_type h p = Returned (result p TEXT LANGUAGE (6 # 10) None).
Proof.
  intros H R Mu Si Ma.
  destruct (print_hi_generic_text h p) as [Sb G].
  repeat split; auto using print_hi_python_score, print_hi_no_category.
  apply (content_stage_decides h p mode 11 _ _ H); auto.
  - now apply regular_not_directory.
  - discriminate.
  - unfold _language_tests.
    rewrite (node_read_file_safely _ _ _ _ _ H).
    change (max_size <? 11) with false. cbv iota.
    rewrite print_hi_decoded, Sb, print_hi_no_category. exact G.
Qed.

Lemma print_hi_is_plain_text_witness :
  score_patterns print_host print_hi python_patterns =
    (2, [anywhere [lit "print"; s_star; lit "("]]) /\
  detect_file_type print_host (tmp "hello") =
    Returned (result (tmp "hello") TEXT LANGUAGE (6 # 10) None).
Proof.
  destruct (print_hi_is_plain_text print_host (tmp "hello") mode_644)
    as (_ & S & _ & D); try reflexivity.
  split; [exact S | exact D].
Defined.

(** C3, as stated, fails on [print('hi')]: the Python score is 2, not at
    least 3, and the answer is TEXT, not the Python category. *)
Lemma print_hi_below_threshold :
  fst (score_patterns print_host print_hi python_patterns) = 2 /\
  ~ 3 <= fst (score_patterns print_host print_hi python_patterns) /\
  detect_file_type print_host (tmp "hello") =
    Returned (result (tmp "hello") TEXT LANGUAGE (6 # 10) None) /\
  (forall r, detect_file_type print_host (tmp "hello") = Returned r ->
             file_type r <> PYTHON).
Proof.
  repeat split; try (vm_compute; reflexivity).
  - vm_compute. intros C. now apply C.
  - intros r D. vm_compute in D. injection D as <-. discriminate.
Qed.

(** ** Compound suffixes *)

Lemma archive_tar_gz_suffixes h p :
  name p = u "archive.tar.gz" ->
  1 < len (suffixes p) /\
  all_suffixes h p = u ".tar.gz" /\
  dict_get _build_extension_map (u ".tar.gz") = Some GZIP.
Proof.
  intros N. unfold all_suffixes, suffixes. rewrite N.
  repeat split; vm_compute; reflexivity.
Qed.

(** C6.  On a path that is neither a directory nor a link and whose size
    is not zero (so on every non-empty regular file, whatever its
    permission bits): a file named [archive.tar.gz] is answered GZIP by the
    filesystem stage with confidence 0.8 and the explanation
    "Extension: .tar.gz"; and with two or more suffixes the lookups go
    longest first: all the suffixes together, then the last two, then the
    final suffix alone, the first one that is a key of the extension table
    giving the answer. *)
Theorem compound_suffix_priority (h : Host) (p : Path) (mode size : Z)
    (data : option bytes) :
  fs h p = Some (Node mode size data) ->
  S_ISDIR mode = false ->
  size <> 0 ->
  (name p = u "archive.tar.gz" ->
   _filesystem_tests h p = Some (extension_answer p (u ".tar.gz") GZIP) /\
   detect_file_type h p = Returned (extension_answer p (u ".tar.gz") GZIP) /\
   confidence (extension_answer p (u ".tar.gz") GZIP) = (8 # 10)%Q /\
   exists text, details (extension_answer p (u ".tar.gz") GZIP) = Some text /\
                str_in (u ".tar.gz") text = true) /\
  (1 < len (suffixes p) ->
   (forall ft,
       dict_get _build_extension_map (all_suffixes h p) = Some ft ->
       _filesystem_tests h p = Some (extension_answer p (all_suffixes h p) ft)) /\
   (forall ft,
       dict_get _build_extension_map (all_suffixes h p) = None ->
       dict_get _build_extension_map (last_two_suffixes h p) = Some ft ->
       _filesystem_tests h p =
         Some (extension_answer p (last_two_suffixes h p) ft)) /\
   (forall ft,
       dict_get _build_extension_map (all_suffixes h p) = None ->
       dict_get _build_extension_map (last_two_suffixes h p) = None ->
       dict_get _build_extension_map (final_suffix h p) = Some ft ->
       _filesystem_tests h p = Some (extension_answer p (final_suffix h p) ft)) /\
   (dict_get _build_extension_map (all_suffixes h p) = None ->
    dict_get _build_extension_map (last_two_suffixes h p) = None ->
    dict_get _build_extension_map (final_suffix h p) = None ->
    _filesystem_tests h p = None)).
Proof.
  intros H D Z.
  pose proof (node_filesystem_tests h p mode size data H D Z) as F.
  assert (Many :
    1 < len (suffixes p) ->
    multiple_extensions_check h p =
      match dict_get _build_extension_map (all_suffixes h p) with
      | Some ft => Some (extension_answer p (all_suffixes h p) ft)
      | None =>
          match dict_get _build_extension_map (last_two_suffixes h p) with
          | Some ft => Some (extension_answer p (last_two_suffixes h p) ft)
          | None => None
          end
      end).
  { intros L. unfold multiple_extensions_check.
    assert (L1 : (1 <? len (suffixes p)) = true) by now apply Z.ltb_lt.
    assert (L2 : (2 <=? len (suffixes p)) = true) by (apply Z.leb_le; lia).
    rewrite L1, L2. reflexivity. }
  split.
  - intros N. destruct (archive_tar_gz_suffixes h p N) as (L & A & G).
    assert (FS : _filesystem_tests h p = Some (extension_answer p (u ".tar.gz") GZIP)).
    { rewrite F, (Many L), A, G. reflexivity. }
    assert (DT : detect_file_type h p =
                 Returned (extension_answer p (u ".tar.gz") GZIP)).
    { rewrite (detect_existing _ _ (node_exists _ _ _ _ _ H)), FS.
      reflexivity. }
    repeat split; auto.
    eexists. split; [reflexivity|]. vm_compute. reflexivity.
  - intros L. rewrite F, (Many L). unfold single_extension_check.
    fold (final_suffix h p). unfold extension_details.
    repeat split.
    + intros ft A. now rewrite A.
    + intros ft A T. now rewrite A, T.
    + intros ft A T O. now rewrite A, T, O.
    + intros A T O. now rewrite A, T, O.
Qed.

Lemma compound_suffix_priority_witness :
  detect_file_type archive_host (tmp "archive.tar.gz") =
    Returned (extension_answer (tmp "archive.tar.gz") (u ".tar.gz") GZIP) /\
  _filesystem_tests archive_host (tmp "archive.tar.gz") =
    Some (extension_answer (tmp "archive.tar.gz")
            (all_suffixes archive_host (tmp "archive.tar.gz")) GZIP).
Proof.
  destruct (compound_suffix_priority archive_host (tmp "archive.tar.gz")
              mode_644 23 (Some (list_byte_of_string "fake compressed content")))
    as [A B]; try reflexivity; try discriminate.
  split.
  - apply (proj1 (proj2 (A eq_refl))).
  - apply (proj1 (B eq_refl)). reflexivity.
Defined.

(** ** The first line of a file *)

Lemma decode_utf8_ascii b t :
  byte_is_ascii b = true ->
  decode_utf8 (b :: t) = option_map (cons (Byte.to_N b)) (decode_utf8 t) /\
  decode_utf8_sig (b :: t) = decode_utf8 (b :: t).
Proof.
  intros A. destruct b; first [discriminate A | split; reflexivity].
Qed.

Lemma decode_utf8_ascii_app line rest :
  forallb byte_is_ascii line = true ->
  decode_utf8 (line ++ rest) =
  option_map (app (map Byte.to_N line)) (decode_utf8 rest).
Proof.
  induction line as [|b line IH]; simpl app; intros A.
  - now destruct (decode_utf8 rest).
  - simpl in A. apply andb_true_iff in A as [Ab Al].
    rewrite (proj1 (decode_utf8_ascii b _ Ab)), (IH Al).
    now destruct (decode_utf8 rest).
Qed.

(** Whatever follows an ASCII line, the reader's text begins with that
    line, and the line ends in the text where it ends in the file. *)
Lemma decode_first_line line rest content :
  line <> [] ->
  forallb byte_is_ascii line = true ->
  line_ends x0a rest ->
  decode_first encodings (line ++ rest) = Some content ->
  exists more, content = map Byte.to_N line ++ more /\ line_ends 10%N more.
Proof.
  intros NE A E. unfold encodings. simpl decode_first.
  rewrite (decode_utf8_ascii_app line rest A).
  assert (Sig : decode_utf8_sig (line ++ rest) = decode_utf8 (line ++ rest)).
  { destruct line as [|b line]; [congruence|].
    simpl in A. apply andb_true_iff in A as [Ab _].
    apply (decode_utf8_ascii b (line ++ rest) Ab). }
  rewrite Sig, (decode_utf8_ascii_app line rest A).
  destruct (decode_utf8 rest) as [more|] eqn:U; simpl option_map.
  - intros C. injection C as <-. exists more. split; [reflexivity|].
    destruct E as [->|[r ->]].
    + simpl in U. injection U as <-. now left.
    + rewrite (proj1 (decode_utf8_ascii x0a r eq_refl)) in U.
      destruct (decode_utf8 r) as [m|]; [|discriminate].
      simpl in U. injection U as <-. right. now exists m.
  - unfold decode_latin1. intros C. injection C as <-.
    exists (map Byte.to_N rest). split; [apply map_app|].
    destruct E as [->|[r ->]]; [now left|right; now exists (map Byte.to_N r)].
Qed.

Lemma split_first_line sep line more :
  forallb (fun c => negb (N.eqb c sep)) line = true ->
  line_ends sep more ->
  exists lines, split sep (line ++ more) = line :: lines.
Proof.
  intros A E. induction line as [|c line IH]; simpl app.
  - destruct E as [->|[r ->]]; simpl.
    + now exists [].
    + rewrite N.eqb_refl. now exists (split sep r).
  - simpl in A. apply andb_true_iff in A as [Ac Al].
    destruct (IH Al) as [lines L]. simpl. rewrite L.
    apply negb_true_iff in Ac. rewrite Ac. now exists lines.
Qed.

Lemma firstn_first_line {A} (n : nat) (lf : A) (line rest : list A) :
  (length line < n)%nat ->
  line_ends lf rest ->
  exists rest', firstn n (line ++ rest) = line ++ rest' /\ line_ends lf rest'.
Proof.
  intros L E. rewrite firstn_app.
  rewrite (firstn_all2 line) by lia.
  exists (firstn (n - length line) rest). split; [reflexivity|].
  destruct E as [->|[r ->]].
  - left. apply firstn_nil.
  - right. destruct (n - length line)%nat as [|k] eqn:K; [lia|].
    simpl. now exists (firstn k r).
Qed.

(** ** The shebang check *)

Lemma shebang_scan_first items shebang p :
  match shebang_scan items shebang p with
  | Some r =>
      exists before pattern ft after,
        items = before ++ (pattern, ft) :: after /\
        Forall (fun e => str_in (fst e) shebang = false) before /\
        str_in pattern shebang = true /\
        r = result p ft LANGUAGE (9 # 10) (Some (u "Shebang: " ++ shebang))
  | None => Forall (fun e => str_in (fst e) shebang = false) items
  end.
Proof.
  induction items as [|[pattern ft] items IH]; simpl; [constructor|].
  destruct (str_in pattern shebang) eqn:S.
  - exists [], pattern, ft, items. repeat split; auto.
  - destruct (shebang_scan items shebang p) as [r|].
    + destruct IH as (before & pat' & ft' & after & -> & Hb & Hs & ->).
      exists ((pattern, ft) :: before), pat', ft', after. repeat split; auto.
    + constructor; auto.
Qed.

Lemma shebang_check_python h p content lines :
  split 10%N content = u shebang_line :: lines ->
  shebang_check h content p =
    Some (result p PYTHON LANGUAGE (9 # 10)
            (Some (u "Shebang: #!/usr/bin/env python3"))).
Proof.
  intros S. unfold shebang_check. rewrite S. vm_compute. reflexivity.
Qed.

Lemma shebang_content_check h p rest :
  line_ends x0a rest ->
  exists content,
    decode_first encodings (list_byte_of_string shebang_line ++ rest) =
      Some content /\
    shebang_check h content p =
      Some (result p PYTHON LANGUAGE (9 # 10)
              (Some (u "Shebang: #!/usr/bin/env python3"))).
Proof.
  intros E.
  destruct (decode_first_total (list_byte_of_string shebang_line ++ rest))
    as [content C].
  exists content. split; [exact C|].
  assert (NE : list_byte_of_string shebang_line <> []) by discriminate.
  assert (A : forallb byte_is_ascii (list_byte_of_string shebang_line) = true)
    by (vm_compute; reflexivity).
  destruct (decode_first_line _ _ _ NE A E C) as (more & -> & M).
  destruct (split_first_line 10%N
              (map Byte.to_N (list_byte_of_string shebang_line)) more)
    as [lines L]; [vm_compute; reflexivity|exact M|].
  exact (shebang_check_python h p _ lines L).
Qed.

Lemma shebang_file_language_tests h p mode size rest :
  fs h p = Some (Node mode size (Some (list_byte_of_string shebang_line ++ rest))) ->
  line_ends x0a rest ->
  _language_tests h p =
    Some (result p PYTHON LANGUAGE (9 # 10)
            (Some (u "Shebang: #!/usr/bin/env python3"))).
Proof.
  intros H E. unfold _language_tests.
  rewrite (node_read_file_safely _ _ _ _ _ H).
  destruct (max_size <? size).
  - destruct (firstn_first_line (Z.to_nat 8192) x0a
                (list_byte_of_string shebang_line) rest)
      as (rest' & -> & E'); [apply Nat.ltb_lt; vm_compute; reflexivity|exact E|].
    destruct (shebang_content_check h p rest' E') as (content & -> & ->).
    reflexivity.
  - destruct (shebang_content_check h p rest E) as (content & -> & ->).
    reflexivity.
Qed.

(** C5, on the code.  The file of [test_language_detection_python], a
    script without extension whose first line is [#!/usr/bin/env python3],
    on a host where libmagic is installed and describes it as
    [text/x-script.python]: the filesystem stage has no answer, the
    signature stage finds "text" in the description and answers TEXT with
    confidence 0.6, so [detect_file_type] returns that and the content
    stage, whose answer would be Python, "Shebang", is never asked.  On the
    same file without libmagic the answer is Python through the content
    stage. *)
Theorem shebang_script_with_libmagic :
  _filesystem_tests python_script_magic_host (tmp "python_script") = None /\
  _magic_tests python_script_magic_host (tmp "python_script") =
    Some (result (tmp "python_script") TEXT MAGIC (6 # 10)
            (Some (u "Magic: text/x-script.python"))) /\
  _language_tests python_script_magic_host (tmp "python_script") =
    Some (result (tmp "python_script") PYTHON LANGUAGE (9 # 10)
            (Some (u "Shebang: #!/usr/bin/env python3"))) /\
  detect_file_type python_script_magic_host (tmp "python_script") =
    Returned (result (tmp "python_script") TEXT MAGIC (6 # 10)
                (Some (u "Magic: text/x-script.python"))) /\
  detect_file_type python_script_host (tmp "python_script") =
    Returned (result (tmp "python_script") PYTHON LANGUAGE (9 # 10)
                (Some (u "Shebang: #!/usr/bin/env python3"))).
Proof. repeat split; vm_compute; reflexivity. Qed.

(** ** The repository's tests, run on the model

    Each assertion of [tests/test_detector.py] about [detect_file_type]
    holds of the embedding, on a host without libmagic. *)

Ltac run_test :=
  eexists; split; [vm_compute; reflexivity|]; vm_compute; repeat split.

Example test_python_file_detection :
  exists r,
    detect_file_type (regular_file "test.py" mode_644 "print('Hello, world!')")
      (tmp "test.py") = Returned r /\
    file_type r = PYTHON /\ test_type r = FILESYSTEM /\ (5 # 10 < confidence r)%Q.
Proof. run_test. Qed.

Example test_javascript_file_detection :
  exists r,
    detect_file_type
      (regular_file "test.js" mode_644 "console.log('Hello, world!');")
      (tmp "test.js") = Returned r /\
    file_type r = JAVASCRIPT /\ test_type r = FILESYSTEM.
Proof. run_test. Qed.

Example test_directory_detection :
  detect_file_type test_dir_host (tmp "testdir") =
    Returned (result (tmp "testdir") DIRECTORY FILESYSTEM 1 None).
Proof. vm_compute. reflexivity. Qed.

Example test_empty_file_detection :
  detect_file_type (regular_file "empty.txt" mode_644 "") (tmp "empty.txt") =
    Returned (result (tmp "empty.txt") EMPTY FILESYSTEM 1 None).
Proof. vm_compute. reflexivity. Qed.

Example test_nonexistent_file :
  detect_file_type test_dir_host (tmp "does_not_exist.txt") =
    Returned (result (tmp "does_not_exist.txt") UNKNOWN FILESYSTEM 1
                (Some (u "File not found"))).
Proof. vm_compute. reflexivity. Qed.

Example test_language_detection_python :
  exists r,
    detect_file_type python_script_host (tmp "python_script") = Returned r /\
    file_type r = PYTHON /\ test_type r = LANGUAGE.
Proof. run_test. Qed.

Example test_language_detection_javascript :
  detect_file_type (regular_file "js_script" mode_644 js_script_text)
    (tmp "js_script") =
    Returned (result (tmp "js_script") JAVASCRIPT LANGUAGE (Qmin (10 # 10) 1)
                (Some (u "Language patterns: 4 matches"))).
Proof. vm_compute. reflexivity. Qed.

Example test_text_file_detection :
  exists r,
    detect_file_type
      (regular_file "readme.txt" mode_644 "This is a plain text file.
") (tmp "readme.txt") = Returned r /\
    file_type r = TEXT /\ test_type r = FILESYSTEM.
Proof. run_test. Qed.

Example test_binary_content_detection :
  detect_file_type binary_file_host (tmp "binary_file") =
    Returned (result (tmp "binary_file") BINARY LANGUAGE (8 # 10)
                (Some (u "Binary content detected"))).
Proof. vm_compute. reflexivity. Qed.

Example test_shell_script_detection :
  exists r,
    detect_file_type (regular_file "script.sh" mode_644 shell_script_text)
      (tmp "script.sh") = Returned r /\
    file_type r = SHELL /\ test_type r = FILESYSTEM.
Proof. run_test. Qed.

Example test_csv_detection :
  exists r,
    detect_file_type
      (regular_file "data.csv" mode_644 "Name,Age,City
John,25,New York
") (tmp "data.csv") = Returned r /\
    file_type r = CSV /\ test_type r = FILESYSTEM.
Proof. run_test. Qed.

Example test_multiple_extensions :
  exists r,
    detect_file_type archive_host (tmp "archive.tar.gz") = Returned r /\
    file_type r = GZIP /\
    exists text, details r = Some text /\ str_in (u ".tar.gz") text = true.
Proof.
  eexists. split; [vm_compute; reflexivity|]. vm_compute.
  split; [reflexivity|]. eexists. split; reflexivity.
Qed.

(** * Further properties of the detector *)

(** ** The filesystem stage *)

Lemma stat_exists h p st :
  path_stat h p = Some st -> path_exists h p = Returned true.
Proof. unfold path_exists. now intros ->. Qed.

(** X1.  A path that leads to a directory, directly or through links, is
    answered DIRECTORY with confidence 1.0 and no explanation, whatever its
    name and whatever libmagic would say; a link to a directory is
    answered DIRECTORY, not SYMLINK. *)
Theorem directory_is_directory (h : Host) (p : Path) (st : stat_result) :
  path_stat h p = Some st ->
  S_ISDIR (st_mode st) = true ->
  detect_file_type h p = Returned (result p DIRECTORY FILESYSTEM 1 None).
Proof.
  intros S D. rewrite (detect_existing _ _ (stat_exists _ _ _ S)).
  unfold _filesystem_tests. rewrite S, D. reflexivity.
Qed.

Lemma directory_is_directory_witness :
  is_symlink linked_dir_host (tmp "current") = true /\
  detect_file_type linked_dir_host (tmp "current") =
    Returned (result (tmp "current") DIRECTORY FILESYSTEM 1 None).
Proof.
  split; [reflexivity|].
  apply (directory_is_directory linked_dir_host (tmp "current")
           (mkStat mode_dir 4096)); reflexivity.
Defined.

(** X2.  A link that leads to anything but a directory is answered SYMLINK
    with confidence 1.0, whatever the name, size and content of its
    target. *)
Theorem link_to_file_is_symlink (h : Host) (p target : Path) (st : stat_result) :
  fs h p = Some (Symlink target) ->
  path_stat h p = Some st ->
  S_ISDIR (st_mode st) = false ->
  detect_file_type h p = Returned (result p SYMLINK FILESYSTEM 1 None).
Proof.
  intros L S D. rewrite (detect_existing _ _ (stat_exists _ _ _ S)).
  unfold _filesystem_tests, is_symlink. rewrite S, D, L. reflexivity.
Qed.

Lemma link_to_file_is_symlink_witness :
  detect_file_type linked_file_host (tmp "latest.py") =
    Returned (result (tmp "latest.py") SYMLINK FILESYSTEM 1 None).
Proof.
  apply (link_to_file_is_symlink linked_file_host (tmp "latest.py")
           (tmp "test.py") (mkStat mode_644 22)); reflexivity.
Defined.

(** X3.  An entry of size zero that is neither a directory nor a link is
    answered EMPTY with confidence 1.0, whatever its extension. *)
Theorem empty_file_is_empty (h : Host) (p : Path) (mode : Z) (data : option bytes) :
  fs h p = Some (Node mode 0 data) ->
  S_ISDIR mode = false ->
  detect_file_type h p = Returned (result p EMPTY FILESYSTEM 1 None).
Proof.
  intros H D. rewrite (detect_existing _ _ (node_exists _ _ _ _ _ H)).
  unfold _filesystem_tests, path_stat, is_symlink.
  rewrite (node_stat _ _ _ _ _ H), H.
  cbn [option_map fst st_mode st_size negb]. rewrite D. reflexivity.
Qed.

Lemma empty_file_is_empty_witness :
  detect_file_type (regular_file "empty.py" mode_755 "") (tmp "empty.py") =
    Returned (result (tmp "empty.py") EMPTY FILESYSTEM 1 None).
Proof.
  apply (empty_file_is_empty (regular_file "empty.py" mode_755 "")
           (tmp "empty.py") mode_755 (Some [])); reflexivity.
Defined.

(** X4.  For a non-empty entry that is neither a directory nor a link and
    whose name has at most one suffix: when the lower-cased suffix is a key
    of the extension table, the answer is the category of the table, stage
    FILESYSTEM, confidence 0.8, explanation "Extension: " and the suffix;
    the content of the file and libmagic are not asked. *)
Theorem known_extension_decides (h : Host) (p : Path) (mode size : Z)
    (data : option bytes) (ft : FileType) :
  fs h p = Some (Node mode size data) ->
  S_ISDIR mode = false ->
  size <> 0 ->
  len (suffixes p) <= 1 ->
  dict_get _build_extension_map (final_suffix h p) = Some ft ->
  detect_file_type h p = Returned (extension_answer p (final_suffix h p) ft).
Proof.
  intros H D Z L G. rewrite (detect_existing _ _ (node_exists _ _ _ _ _ H)).
  rewrite (node_filesystem_tests _ _ _ _ _ H D Z).
  unfold multiple_extensions_check, single_extension_check.
  assert (L1 : (1 <? len (suffixes p)) = false) by (apply Z.ltb_ge; lia).
  rewrite L1. fold (final_suffix h p). rewrite G. reflexivity.
Qed.

Lemma known_extension_decides_witness :
  detect_file_type unreadable_py_host (tmp "Secret.PY") =
    Returned (extension_answer (tmp "Secret.PY") (u ".py") PYTHON).
Proof.
  apply (known_extension_decides unreadable_py_host (tmp "Secret.PY")
           mode_644 1024 None PYTHON); try reflexivity; try discriminate.
Defined.

(** ** Extensions are read without regard to case *)

Lemma ascii_lower_dot c : N.eqb (ascii_lower c) dot = N.eqb c dot.
Proof.
  unfold ascii_lower, ascii_isupper, dot.
  destruct ((65 <=? c)%N && (c <=? 90)%N) eqn:U; [|reflexivity].
  apply andb_true_iff in U as [Lo Hi].
  apply N.leb_le in Lo. apply N.leb_le in Hi.
  transitivity false; [|symmetry]; apply N.eqb_neq; lia.
Qed.

Lemma dot_ascii_lower c : N.eqb dot (ascii_lower c) = N.eqb dot c.
Proof. now rewrite N.eqb_sym, ascii_lower_dot, N.eqb_sym. Qed.

Lemma rfind_from_lower s i acc :
  rfind_from dot (map ascii_lower s) i acc = rfind_from dot s i acc.
Proof.
  revert i acc. induction s as [|c s IH]; intros i acc; simpl; [reflexivity|].
  now rewrite ascii_lower_dot, IH.
Qed.

Lemma split_lower s :
  split dot (map ascii_lower s) = map (map ascii_lower) (split dot s).
Proof.
  induction s as [|c s IH]; simpl; [reflexivity|].
  rewrite ascii_lower_dot, IH.
  destruct (N.eqb c dot); [reflexivity|].
  now destruct (split dot s).
Qed.

Lemma dropwhile_lower s :
  dropwhile (N.eqb dot) (map ascii_lower s) =
  map ascii_lower (dropwhile (N.eqb dot) s).
Proof.
  induction s as [|c s IH]; cbn [dropwhile map]; [reflexivity|].
  rewrite dot_ascii_lower. destruct (N.eqb dot c); [exact IH | reflexivity].
Qed.

Lemma endswith_dot_lower s :
  endswith [dot] (map ascii_lower s) = endswith [dot] s.
Proof.
  unfold endswith. rewrite <- map_rev.
  destruct (rev s) as [|c r]; cbn [map rev app startswith]; [reflexivity|].
  now rewrite dot_ascii_lower.
Qed.

Lemma suffix_lowered p : suffix (lowered p) = map ascii_lower (suffix p).
Proof.
  unfold suffix, lowered, rfind, len, slice_from. cbn [name].
  rewrite rfind_from_lower, length_map.
  destruct (_ && _); [apply skipn_map | reflexivity].
Qed.

Lemma suffixes_lowered p :
  suffixes (lowered p) = map (map ascii_lower) (suffixes p).
Proof.
  unfold suffixes, lowered. cbn [name].
  rewrite endswith_dot_lower, dropwhile_lower, split_lower.
  destruct (endswith [dot] (name p)); [reflexivity|].
  rewrite !map_map.
  destruct (split dot (dropwhile (N.eqb dot) (name p))) as [|l ls];
    [reflexivity|].
  simpl. rewrite !map_map. reflexivity.
Qed.

Lemma forallb_skipn {A} (f : A -> bool) n l :
  forallb f l = true -> forallb f (skipn n l) = true.
Proof.
  revert l. induction n as [|n IH]; intros [|x l]; simpl; auto.
  intros F. apply andb_true_iff in F as [_ F]. now apply IH.
Qed.

Lemma forallb_dropwhile {A} (f g : A -> bool) l :
  forallb f l = true -> forallb f (dropwhile g l) = true.
Proof.
  induction l as [|x l IH]; simpl; auto.
  intros F. destruct (g x); [|exact F].
  apply andb_true_iff in F as [_ F]. now apply IH.
Qed.

Lemma forallb_split f sep s :
  forallb f s = true -> forallb (forallb f) (split sep s) = true.
Proof.
  induction s as [|c s IH]; simpl; [reflexivity|].
  intros F. apply andb_true_iff in F as [Fc Fs]. specialize (IH Fs).
  destruct (N.eqb c sep); [exact IH|].
  destruct (split sep s) as [|l ls]; simpl in *.
  - now rewrite Fc.
  - apply andb_true_iff in IH as [Fl Fls]. now rewrite Fc, Fl, Fls.
Qed.

Lemma forallb_concat {A} (f : A -> bool) ls :
  forallb (forallb f) ls = true -> forallb f (concat ls) = true.
Proof.
  induction ls as [|l ls IH]; simpl; [reflexivity|].
  intros F. apply andb_true_iff in F as [Fl Fls].
  rewrite forallb_app, Fl. now apply IH.
Qed.

Lemma suffixes_ascii p :
  forallb is_ascii (name p) = true ->
  forallb (forallb is_ascii) (suffixes p) = true.
Proof.
  intros A. unfold suffixes. destruct (endswith [dot] (name p)); [reflexivity|].
  pose proof (forallb_split is_ascii dot _
                (forallb_dropwhile is_ascii (N.eqb dot) _ A)) as F.
  revert F. unfold str, codepoint.
  destruct (split dot (dropwhile (N.eqb dot) (name p))) as [|l ls];
    [reflexivity|].
  cbn [forallb tl]. intros F. apply andb_true_iff in F as [_ F].
  induction ls as [|x ls IH]; cbn [map forallb] in *; [reflexivity|].
  apply andb_true_iff in F as [Fx F].
  apply andb_true_iff. split; [|now apply IH].
  apply andb_true_iff. split; [reflexivity | exact Fx].
Qed.

Lemma lower_ascii rt s :
  forallb is_ascii s = true -> lower rt s = map ascii_lower s.
Proof. unfold lower. now intros ->. Qed.

(** On an ASCII name the three strings that are looked up are those of the
    name in lower case. *)
Lemma lookups_lowered h p :
  forallb is_ascii (name p) = true ->
  final_suffix h p = suffix (lowered p) /\
  all_suffixes h p = join (suffixes (lowered p)) /\
  last_two_suffixes h p = join (last_n 2 (suffixes (lowered p))) /\
  len (suffixes p) = len (suffixes (lowered p)).
Proof.
  intros A. pose proof (suffixes_ascii p A) as SA.
  unfold final_suffix, all_suffixes, last_two_suffixes, join, last_n, len.
  rewrite suffix_lowered, suffixes_lowered, length_map, skipn_map,
    <- !concat_map.
  repeat split; apply lower_ascii.
  - unfold suffix. destruct (_ && _); [|reflexivity].
    now apply forallb_skipn.
  - now apply forallb_concat.
  - apply forallb_concat. now apply forallb_skipn.
Qed.

Lemma extension_checks_unfold h p :
  multiple_extensions_check h p =
    (if 1 <? len (suffixes p) then
       match dict_get _build_extension_map (all_suffixes h p) with
       | Some ft => Some (extension_answer p (all_suffixes h p) ft)
       | None =>
           if 2 <=? len (suffixes p) then
             match dict_get _build_extension_map (last_two_suffixes h p) with
             | Some ft => Some (extension_answer p (last_two_suffixes h p) ft)
             | None => None
             end
           else None
       end
     else None) /\
  single_extension_check h p =
    match dict_get _build_extension_map (final_suffix h p) with
    | Some ft => Some (extension_answer p (final_suffix h p) ft)
    | None => None
    end.
Proof. split; reflexivity. Qed.

Lemma extension_checks_same_lookups h p q :
  len (suffixes p) = len (suffixes q) ->
  all_suffixes h p = all_suffixes h q ->
  last_two_suffixes h p = last_two_suffixes h q ->
  final_suffix h p = final_suffix h q ->
  option_map answer_of (multiple_extensions_check h p) =
    option_map answer_of (multiple_extensions_check h q) /\
  option_map answer_of (single_extension_check h p) =
    option_map answer_of (single_extension_check h q).
Proof.
  intros L A T F.
  destruct (extension_checks_unfold h p) as [-> ->].
  destruct (extension_checks_unfold h q) as [-> ->].
  rewrite L, A, T, F. split.
  - destruct (1 <? len (suffixes q)); [|reflexivity].
    destruct (dict_get _ (all_suffixes h q)); [reflexivity|].
    destruct (2 <=? len (suffixes q)); [|reflexivity].
    now destruct (dict_get _ (last_two_suffixes h q)).
  - now destruct (dict_get _ (final_suffix h q)).
Qed.

(** X5.  The extension rules do not see the case of ASCII letters: two
    non-empty files (neither directory nor link) whose ASCII names differ
    in the case of letters only get the same answer from the filesystem
    stage: same category, confidence and explanation, or none for
    both. *)
Theorem extension_case_insensitive (h : Host) (p q : Path)
    (mode_p size_p mode_q size_q : Z) (data_p data_q : option bytes) :
  fs h p = Some (Node mode_p size_p data_p) ->
  fs h q = Some (Node mode_q size_q data_q) ->
  S_ISDIR mode_p = false -> S_ISDIR mode_q = false ->
  size_p <> 0 -> size_q <> 0 ->
  forallb is_ascii (name p) = true ->
  forallb is_ascii (name q) = true ->
  map ascii_lower (name p) = map ascii_lower (name q) ->
  option_map answer_of (_filesystem_tests h p) =
  option_map answer_of (_filesystem_tests h q).
Proof.
  intros Hp Hq Dp Dq Zp Zq Ap Aq E.
  rewrite (node_filesystem_tests _ _ _ _ _ Hp Dp Zp),
          (node_filesystem_tests _ _ _ _ _ Hq Dq Zq).
  destruct (lookups_lowered h p Ap) as (Fp & Alp & Tp & Lp).
  destruct (lookups_lowered h q Aq) as (Fq & Alq & Tq & Lq).
  assert (S1 : suffix (lowered p) = suffix (lowered q))
    by (unfold suffix, lowered; cbn [name]; now rewrite E).
  assert (S2 : suffixes (lowered p) = suffixes (lowered q))
    by (unfold suffixes, lowered; cbn [name]; now rewrite E).
  assert (L : len (suffixes p) = len (suffixes q)) by now rewrite Lp, Lq, S2.
  assert (A : all_suffixes h p = all_suffixes h q) by congruence.
  assert (T : last_two_suffixes h p = last_two_suffixes h q) by congruence.
  assert (F : final_suffix h p = final_suffix h q) by congruence.
  destruct (extension_checks_same_lookups h p q L A T F) as [M S].
  destruct (multiple_extensions_check h p), (multiple_extensions_check h q);
    simpl in *; congruence.
Qed.

Lemma extension_case_insensitive_witness :
  option_map answer_of (_filesystem_tests readme_host (tmp "NOTES.Tar.GZ")) =
  option_map answer_of (_filesystem_tests readme_host (tmp "notes.tar.gz")).
Proof.
  apply (extension_case_insensitive readme_host (tmp "NOTES.Tar.GZ")
           (tmp "notes.tar.gz") mode_644 3 mode_644 3
           (Some (list_byte_of_string "one")) (Some (list_byte_of_string "two")));
    try reflexivity; try discriminate.
Defined.

(** ** The signature stage *)

Lemma startswith_str_in p s : startswith p s = true -> str_in p s = true.
Proof. intros S. destruct s; simpl; now rewrite S. Qed.

(** A string that occurs in [s] still occurs without its first character. *)
Lemma str_in_tail c p s : str_in (c :: p) s = true -> str_in p s = true.
Proof.
  induction s as [|y s IH]; simpl.
  - discriminate.
  - intros H. apply orb_true_iff in H as [H|H].
    + apply andb_true_iff in H as [_ H].
      apply startswith_str_in in H. rewrite H. apply orb_true_r.
    + rewrite (IH H). apply orb_true_r.
Qed.

(** X6.  The signature stage never answers GZIP: a description that holds
    "gzip" holds "zip", which comes earlier in [magic_mappings], so that
    such a description is answered as a ZIP archive (or by an entry before
    "zip"). *)
Theorem magic_never_gzip (h : Host) (p : Path) (r : DetectionResult) :
  _magic_tests h p = Some r ->
  file_type r <> GZIP.
Proof.
  unfold _magic_tests. intros H.
  destruct (magic h) as [from_file|]; [|discriminate].
  destruct (from_file p) as [magic_result|]; [|discriminate].
  revert H. generalize (lower (rt h) magic_result) as low. intros low.
  unfold magic_mappings. cbn [magic_scan].
  destruct (str_in (u "pdf") low); [intros H; inv_some; discriminate|].
  destruct (str_in (u "jpeg") low); [intros H; inv_some; discriminate|].
  destruct (str_in (u "png") low); [intros H; inv_some; discriminate|].
  destruct (str_in (u "gif") low); [intros H; inv_some; discriminate|].
  destruct (str_in (u "zip") low) eqn:Zip; [intros H; inv_some; discriminate|].
  destruct (str_in (u "gzip") low) eqn:Gzip.
  { apply (str_in_tail 103%N (u "zip")) in Gzip. congruence. }
  intros H. repeat break_match_hyp; inv_some; discriminate.
Qed.

Lemma magic_never_gzip_witness :
  _magic_tests (with_magic archive_host "application/gzip") (tmp "archive.tar.gz") =
    Some (result (tmp "archive.tar.gz") ZIP MAGIC (9 # 10)
            (Some (u "Magic: application/gzip"))) /\
  ZIP <> GZIP.
Proof.
  split; [vm_compute; reflexivity|].
  apply (magic_never_gzip (with_magic archive_host "application/gzip")
           (tmp "archive.tar.gz")
           (result (tmp "archive.tar.gz") ZIP MAGIC (9 # 10)
              (Some (u "Magic: application/gzip")))).
  vm_compute. reflexivity.
Defined.

(** ** Every stage signs its answers *)

Lemma stage_labels h p r :
  (_filesystem_tests h p = Some r -> test_type r = FILESYSTEM) /\
  (_magic_tests h p = Some r -> test_type r = MAGIC) /\
  (_language_tests h p = Some r -> test_type r = LANGUAGE).
Proof.
  repeat split; intros H.
  - apply _filesystem_tests_cases in H
      as [->|[->|[->|(s & ft & _ & ->)]]]; reflexivity.
  - apply _magic_tests_cases in H
      as (m & [(pat & ft & _ & ->)|[->| ->]]); reflexivity.
  - apply _language_tests_cases in H. destruct H; reflexivity.
Qed.

Lemma specific_test_is_labelled_aux h p requested r :
  _run_specific_test h p requested = Some r ->
  method_value (test_type r) = requested.
Proof.
  unfold _run_specific_test. intros H.
  destruct (stage_labels h p r) as (F & M & L).
  destruct (str_eqb requested (u "filesystem")) eqn:Ef.
  { apply str_eqb_eq in Ef. subst. now rewrite (F H). }
  destruct (str_eqb requested (u "magic")) eqn:Em.
  { apply str_eqb_eq in Em. subst. now rewrite (M H). }
  destruct (str_eqb requested (u "language")) eqn:El; [|discriminate].
  apply str_eqb_eq in El. subst. now rewrite (L H).
Qed.

(** X7.  What [_run_specific_test] returns for a test type carries the tag
    of that test type: the filesystem, signature and content stage each
    sign every answer with their own stage, and any other test type gives
    no result. *)
Theorem specific_test_is_labelled (h : Host) (p : Path) (requested : str)
    (r : DetectionResult) :
  _run_specific_test h p requested = Some r ->
  method_value (test_type r) = requested.
Proof. apply specific_test_is_labelled_aux. Qed.

Lemma specific_test_is_labelled_witness :
  method_value
    (test_type (result (tmp "hello") TEXT LANGUAGE (6 # 10) None)) =
  u "language".
Proof.
  apply (specific_test_is_labelled print_host (tmp "hello") (u "language")).
  vm_compute. reflexivity.
Defined.

(** ** The command line *)

Lemma filesystem_answer_is_final h p r :
  _filesystem_tests h p = Some r -> detect_file_type h p = Returned r.
Proof.
  intros F.
  assert (E : path_exists h p = Returned true).
  { unfold _filesystem_tests in F. unfold path_exists.
    destruct (path_stat h p); [reflexivity|discriminate]. }
  now rewrite (detect_existing _ _ E), F.
Qed.

Lemma tables_never_directory :
  forallb (fun e => negb (is_directory (snd e))) _build_shebang_map = true /\
  forallb (fun e => negb (is_directory (snd e))) magic_mappings = true /\
  forallb (fun e => negb (is_directory (fst e))) _build_language_patterns = true.
Proof. repeat split; vm_compute; reflexivity. Qed.

Lemma in_not_directory {A} (proj : A -> FileType) (l : list A) (e : A) :
  forallb (fun e => negb (is_directory (proj e))) l = true ->
  In e l -> is_directory (proj e) = false.
Proof.
  intros F Hin. rewrite forallb_forall in F. specialize (F e Hin).
  now apply negb_true_iff in F.
Qed.

Lemma later_stages_never_directory h p r :
  _magic_tests h p = Some r \/ _language_tests h p = Some r ->
  is_directory (file_type r) = false.
Proof.
  destruct tables_never_directory as (Sb & Mg & Lp).
  intros [H|H].
  - apply _magic_tests_cases in H
      as (m & [(pat & ft & Hin & ->)|[->| ->]]); try reflexivity.
    apply (in_not_directory snd _ _ Mg Hin).
  - apply _language_tests_cases in H. destruct H; try reflexivity.
    + apply (in_not_directory snd _ (pattern, ft) Sb). assumption.
    + apply (in_not_directory fst _ (ft, patterns) Lp). assumption.
Qed.

(** X8.  Without [--include-directories] the command line never displays a
    result of category DIRECTORY, whatever the test type, the filters and
    the depth limit. *)
Theorem directories_not_displayed (h : Host) (sh : Shell) (o : Options)
    (p : Path) (r : DetectionResult) :
  include_directories o = false ->
  process_file h sh o p = Returned (Some r) ->
  file_type r <> DIRECTORY.
Proof.
  intros I. unfold process_file. rewrite I.
  destruct (too_deep sh o p); [discriminate|].
  destruct (detect_file_type h p) as [r0|e] eqn:DT; cbn [bind]; [|discriminate].
  rewrite andb_true_r.
  destruct (is_directory (file_type r0)) eqn:D; [discriminate|].
  assert (G : forall r', retest h o p r0 = Some r' ->
                         is_directory (file_type r') = false).
  { unfold retest, _run_specific_test. intros r' R.
    repeat break_match_hyp; inv_some; try exact D; try discriminate.
    - apply filesystem_answer_is_final in R. congruence.
    - apply (later_stages_never_directory h p). now left.
    - apply (later_stages_never_directory h p). now right. }
  destruct (retest h o p r0) as [r'|]; [|discriminate].
  destruct (filtered_out o r'); [discriminate|].
  intros E. injection E as <-. specialize (G r' eq_refl).
  intros T. rewrite T in G. discriminate.
Qed.

Lemma directories_not_displayed_witness :
  process_file test_dir_host plain_shell default_options (tmp "testdir") =
    Returned None /\
  file_type (result (tmp "hello") TEXT LANGUAGE (6 # 10) None) <> DIRECTORY.
Proof.
  split; [vm_compute; reflexivity|].
  apply (directories_not_displayed print_host plain_shell default_options
           (tmp "hello")); vm_compute; reflexivity.
Defined.

(** X9.  A result that the command line displays passed the filters that
    were asked for: with a test type other than "all" it carries the tag of
    that test type, and with a non-empty list of [--filter-type] the label
    of its category is in the list. *)
Theorem displayed_result_passes_filters (h : Host) (sh : Shell) (o : Options)
    (p : Path) (r : DetectionResult) :
  process_file h sh o p = Returned (Some r) ->
  (test_type_option o <> u "all" ->
   method_value (test_type r) = test_type_option o) /\
  (filter_type o <> [] ->
   In (file_type_value (file_type r)) (filter_type o)).
Proof.
  unfold process_file.
  destruct (too_deep sh o p); [discriminate|].
  destruct (detect_file_type h p) as [r0|e]; cbn [bind]; [|discriminate].
  destruct (_ && _); [discriminate|].
  destruct (retest h o p r0) as [r'|] eqn:R; [|discriminate].
  destruct (filtered_out o r') eqn:F; [discriminate|].
  intros E. injection E as <-. split.
  - intros NotAll. unfold retest in R.
    destruct (str_eqb (test_type_option o) (u "all")) eqn:A.
    { apply str_eqb_eq in A. contradiction. }
    cbn [negb] in R.
    destruct (str_eqb (method_value (test_type r0))
                (test_type_option o)) eqn:S; cbn [negb] in R.
    + injection R as <-. now apply str_eqb_eq.
    + now apply specific_test_is_labelled_aux in R.
  - intros NE. unfold filtered_out in F.
    destruct (filter_type o) as [|x l] eqn:FT; [contradiction|].
    apply negb_false_iff, existsb_exists in F as (y & Hin & Ey).
    apply str_eqb_eq in Ey. now rewrite Ey.
Qed.

Lemma displayed_result_passes_filters_witness :
  process_file test_py_host plain_shell language_text_options (tmp "test.py") =
    Returned (Some (result (tmp "test.py") TEXT LANGUAGE (6 # 10) None)) /\
  method_value LANGUAGE = u "language" /\
  In (file_type_value TEXT) [u "Text file"].
Proof.
  split; [vm_compute; reflexivity|].
  destruct (displayed_result_passes_filters test_py_host plain_shell
              language_text_options (tmp "test.py")
              (result (tmp "test.py") TEXT LANGUAGE (6 # 10) None))
    as [T F]; [vm_compute; reflexivity|].
  split; [apply T | apply F]; discriminate.
Defined.




(** ** Display *)

Lemma startswith_refl s : startswith s s = true.
Proof. rewrite <- (app_nil_r s) at 2. apply startswith_app. Qed.

Lemma startswith_three (a b c rest : str) :
  startswith (a ++ b ++ c) (a ++ b ++ c ++ rest) = true.
Proof.
  replace (a ++ b ++ c ++ rest) with ((a ++ b ++ c) ++ rest)
    by (now rewrite <- !app_assoc).
  apply startswith_app.
Qed.

(** X11.  Every line that [_display_result] writes begins with the line of
    the quiet mode, "path: label"; the standard line, which is
    [DetectionResult.__str__], is that line alone exactly when the result
    has no explanation or an empty one. *)
Theorem display_begins_with_quiet_line (sh : Shell) (r : DetectionResult)
    (verbose quiet any : bool) :
  startswith (_display_result sh r any true) (_display_result sh r verbose quiet)
    = true /\
  (_display_result sh r false false = _display_result sh r any true <->
   truthy (details r) = false).
Proof.
  unfold _display_result, DetectionResult_str. split.
  - destruct quiet, verbose, (truthy (details r)); cbv zeta;
      first [apply startswith_refl | apply startswith_three].
  - destruct (truthy (details r)); split; try reflexivity; try discriminate.
    intros E. exfalso.
    do 2 apply app_inv_head in E.
    rewrite <- (app_nil_r (file_type_value (file_type r))) in E at 2.
    apply app_inv_head in E. simpl in E. discriminate.
Qed.

(** ** Labels *)

(** X12.  The labels of the categories identify them: looking a label up
    among the members of [FileType] gives back its member, so no two
    members share a label (none is an alias of another) and a
    [--filter-type] label selects one category. *)
Theorem label_identifies_category (a b : FileType) :
  file_type_of_value (file_type_value a) = Some a /\
  (file_type_value a = file_type_value b -> a = b).
Proof.
  assert (R : forall ft, file_type_of_value (file_type_value ft) = Some ft)
    by (intros ft; destruct ft; vm_compute; reflexivity).
  split; [apply R|].
  intros E. pose proof (R a) as Ra. rewrite E, R in Ra. congruence.
Qed.

(** ** The encoding cascade *)

Lemma decode_utf8_bom t :
  decode_utf8 (xef :: xbb :: xbf :: t) = option_map (cons 65279%N) (decode_utf8 t).
Proof. reflexivity. Qed.

Lemma utf8_sig_not_beyond_utf8 bs :
  decode_utf8 bs = None -> decode_utf8_sig bs = None.
Proof.
  intros U.
  assert (B : forall t, bs = xef :: xbb :: xbf :: t -> decode_utf8 t = None).
  { intros t ->. rewrite decode_utf8_bom in U.
    now destruct (decode_utf8 t). }
  unfold decode_utf8_sig.
  destruct bs as [|b0 bs]; [exact U|]. destruct b0; try exact U.
  destruct bs as [|b1 bs]; [exact U|]. destruct b1; try exact U.
  destruct bs as [|b2 t]; [exact U|]. destruct b2; try exact U.
  now apply B.
Qed.

Lemma decode_first_cases content_bytes :
  decode_first encodings content_bytes =
    match decode_utf8 content_bytes with
    | Some text => Some text
    | None => Some (map Byte.to_N content_bytes)
    end.
Proof.
  unfold encodings. cbn [decode_first].
  destruct (decode_utf8 content_bytes) eqn:U; [reflexivity|].
  now rewrite (utf8_sig_not_beyond_utf8 _ U).
Qed.

(** X13.  Of the four encodings of the reader only two ever decide: the
    text is the strict UTF-8 decoding of the bytes when there is one, and
    their Latin-1 decoding otherwise; "utf-8-sig" and "cp1252" are never
    the encoding used.  In particular a byte order mark is never removed:
    content that begins with EF BB BF decodes to a text that begins with
    U+FEFF or with U+00EF. *)
Theorem cascade_is_utf8_or_latin1 (content_bytes : bytes) :
  decode_first encodings content_bytes =
    match decode_utf8 content_bytes with
    | Some text => Some text
    | None => Some (map Byte.to_N content_bytes)
    end /\
  forall rest,
    content_bytes = xef :: xbb :: xbf :: rest ->
    exists c text,
      decode_first encodings content_bytes = Some (c :: text) /\
      (c = 65279%N \/ c = 239%N).
Proof.
  pose proof (decode_first_cases content_bytes) as E.
  split; [exact E|].
  intros rest ->. rewrite E, decode_utf8_bom.
  destruct (decode_utf8 rest) as [text|]; cbn [option_map map].
  - exists 65279%N, text. auto.
  - exists 239%N, (map Byte.to_N (xbb :: xbf :: rest)). auto.
Qed.

Lemma cascade_is_utf8_or_latin1_witness :
  exists c text,
    decode_first encodings
      (xef :: xbb :: xbf :: list_byte_of_string "#!/bin/sh") = Some (c :: text) /\
    (c = 65279%N \/ c = 239%N).
Proof.
  exact (proj2 (cascade_is_utf8_or_latin1
                  (xef :: xbb :: xbf :: list_byte_of_string "#!/bin/sh"))
           _ eq_refl).
Defined.

(** ** The size limit of the reader *)

Lemma decode_utf8_cons b0 t0 :
  decode_utf8 (b0 :: t0) =
    let n0 := Byte.to_N b0 in
    if (n0 <? 128)%N then option_map (cons n0) (decode_utf8 t0)
    else if (n0 <? 194)%N then None
    else if (n0 <? 224)%N then
      match t0 with
      | b1 :: t1 =>
          match cont b1 with
          | Some c1 =>
              option_map (cons ((n0 - 192) * 64 + c1)%N) (decode_utf8 t1)
          | None => None
          end
      | _ => None
      end
    else if (n0 <? 240)%N then
      match t0 with
      | b1 :: b2 :: t2 =>
          match cont b1, cont b2 with
          | Some c1, Some c2 =>
              let cp := ((n0 - 224) * 4096 + c1 * 64 + c2)%N in
              if ((cp <? 2048) || ((55296 <=? cp) && (cp <=? 57343)))%N
              then None
              else option_map (cons cp) (decode_utf8 t2)
          | _, _ => None
          end
      | _ => None
      end
    else if (n0 <? 245)%N then
      match t0 with
      | b1 :: b2 :: b3 :: t3 =>
          match cont b1, cont b2, cont b3 with
          | Some c1, Some c2, Some c3 =>
              let cp := ((n0 - 240) * 262144 + c1 * 4096 + c2 * 64 + c3)%N in
              if ((cp <? 65536) || (1114111 <? cp))%N then None
              else option_map (cons cp) (decode_utf8 t3)
          | _, _, _ => None
          end
      | _ => None
      end
    else None.
Proof. reflexivity. Qed.

(** Decoding never makes a text longer than its bytes. *)
Lemma decode_utf8_length n bs text :
  (length bs <= n)%nat ->
  decode_utf8 bs = Some text ->
  (length text <= length bs)%nat.
Proof.
  revert bs text. induction n as [|n IH]; intros bs text L D.
  - destruct bs; [|simpl in L; lia]. simpl in D. injection D as <-. simpl. lia.
  - destruct bs as [|b0 t0]; [simpl in D; injection D as <-; simpl; lia|].
    rewrite decode_utf8_cons in D. cbv zeta in D. cbn [length] in *.
    repeat break_match_hyp; try discriminate;
      unfold option_map in D; repeat break_match_hyp; try discriminate;
      injection D as <-; cbn [length] in *;
      match goal with
      | H : decode_utf8 _ = Some _ |- _ => apply IH in H; lia
      end.
Qed.

Lemma decode_first_length bs text :
  decode_first encodings bs = Some text -> (length text <= length bs)%nat.
Proof.
  rewrite decode_first_cases.
  destruct (decode_utf8 bs) as [t|] eqn:U; intros E; injection E as <-.
  - now apply (decode_utf8_length (length bs)).
  - rewrite length_map. lia.
Qed.

(** X14.  Of a file that [stat] reports larger than 1 MiB the reader takes
    the first 8 KiB only: the text it returns has at most 8192
    characters. *)
Theorem large_file_text_is_bounded (h : Host) (p : Path) (st : stat_result)
    (content : str) :
  path_stat h p = Some st ->
  max_size < st_size st ->
  _read_file_safely h p = Some content ->
  len content <= 8192.
Proof.
  intros S B. unfold _read_file_safely. rewrite S.
  apply Z.ltb_lt in B. rewrite B. unfold read_bytes.
  destruct (follow (fs h) MAXSYMLINKS p) as [[st' [d|]]|]; try discriminate.
  intros D. apply decode_first_length in D.
  pose proof (firstn_le_length (Z.to_nat 8192) d) as F.
  unfold len. lia.
Qed.

Lemma large_file_text_is_bounded_witness :
  len (repeat 97%N (Z.to_nat 8192)) <= 8192.
Proof.
  apply (large_file_text_is_bounded big_file_host (tmp "core")
           (mkStat mode_644 1048577)).
  - vm_compute. reflexivity.
  - reflexivity.
  - vm_compute. reflexivity.
Defined.

(** ** The byte heuristic *)

Lemma filter_all {A} (f : A -> bool) l :
  forallb f l = true -> filter f l = l.
Proof.
  induction l as [|x l IH]; simpl; [reflexivity|].
  intros F. apply andb_true_iff in F as [Fx Fl]. now rewrite Fx, IH.
Qed.

Lemma filter_none {A} (f : A -> bool) l :
  forallb (fun x => negb (f x)) l = true -> filter f l = [].
Proof.
  induction l as [|x l IH]; simpl; [reflexivity|].
  intros F. apply andb_true_iff in F as [Fx Fl].
  apply negb_true_iff in Fx. now rewrite Fx, IH.
Qed.

(** X15.  [_appears_binary] at its ends: a sample in which every byte is
    printable ASCII, tab, line feed or carriage return is not binary, the
    empty sample included; a non-empty sample without any such byte is
    binary. *)
Theorem appears_binary_extremes (data : bytes) :
  (forallb byte_is_printable data = true -> _appears_binary data = false) /\
  (data <> [] ->
   forallb (fun b => negb (byte_is_printable b)) data = true ->
   _appears_binary data = true).
Proof.
  unfold _appears_binary, len. split.
  - intros F. destruct data as [|b data]; [reflexivity|].
    rewrite (filter_all _ _ F). apply Z.ltb_ge. lia.
  - intros NE F. destruct data as [|b data]; [contradiction|].
    rewrite (filter_none _ _ F). apply Z.ltb_lt. cbn [length]. lia.
Qed.

(** ** Text is always answered *)

Lemma stages_never_unknown h p r :
  _filesystem_tests h p = Some r \/ _magic_tests h p = Some r \/
  _language_tests h p = Some r ->
  file_type r <> UNKNOWN.
Proof.
  intros [F|[M|L]].
  - apply _filesystem_tests_cases in F
      as [->|[->|[->|(s & ft & G & ->)]]]; simpl; try discriminate.
    apply dict_get_in in G. known_type. exact G.
  - apply _magic_tests_cases in M
      as (m & [(pat & ft & G & ->)|[->| ->]]); simpl; try discriminate.
    known_type. exact G.
  - apply _language_tests_cases in L. destruct L; simpl; try discriminate;
      known_type; assumption.
Qed.

Lemma text_like_content_answered h p content :
  _read_file_safely h p = Some content ->
  _is_text_content h content = true ->
  json_loads (rt h) content <> JsonOtherError ->
  exists r, _language_tests h p = Some r.
Proof.
  intros R T J. unfold _language_tests. rewrite R.
  destruct (shebang_check h content p) as [r|]; [now exists r|].
  destruct (pattern_scan h _build_language_patterns content p) as [r|];
    [now exists r|].
  unfold generic_text, text_tail. rewrite T.
  destruct (json_loads (rt h) content); try contradiction;
    repeat match goal with |- context [if ?c then _ else _] => destruct c end;
    eauto.
Qed.

(** X16.  An existing file whose content the reader delivers and finds
    text-like (more than 70% printable or white space) always gets an
    answer before the final fallback, and is never answered UNKNOWN, unless
    [json.loads] raises something other than [JSONDecodeError]. *)
Theorem text_is_never_unknown (h : Host) (p : Path) (content : str) :
  path_exists h p = Returned true ->
  _read_file_safely h p = Some content ->
  _is_text_content h content = true ->
  json_loads (rt h) content <> JsonOtherError ->
  (exists r, _language_tests h p = Some r) /\
  (exists r, detect_file_type h p = Returned r /\ file_type r <> UNKNOWN).
Proof.
  intros E R T J.
  destruct (text_like_content_answered h p content R T J) as [r L].
  split; [now exists r|].
  rewrite (detect_existing _ _ E).
  destruct (_filesystem_tests h p) as [r1|] eqn:F;
    [exists r1; split; [reflexivity|apply (stages_never_unknown h p); auto]|].
  destruct (_magic_tests h p) as [r2|] eqn:M;
    [exists r2; split; [reflexivity|apply (stages_never_unknown h p); auto]|].
  rewrite L. exists r. split; [reflexivity|].
  apply (stages_never_unknown h p); auto.
Qed.

Lemma text_is_never_unknown_witness :
  (exists r, _language_tests print_host (tmp "hello") = Some r) /\
  (exists r, detect_file_type print_host (tmp "hello") = Returned r /\
             file_type r <> UNKNOWN).
Proof.
  apply (text_is_never_unknown print_host (tmp "hello") print_hi);
    try (vm_compute; reflexivity).
  vm_compute. discriminate.
Defined.

(** ** Low confidence *)

Lemma at_least_three_tenths_literal (n : Z) : 3 <= n -> ~ (n # 10 < 3 # 10)%Q.
Proof. intros H. unfold Qlt. simpl. lia. Qed.

Lemma at_least_three_tenths_score (score : Z) :
  3 <= score -> ~ (Qmin (score # 10) 1 < 3 # 10)%Q.
Proof.
  intros H. apply Qle_not_lt. apply Q.min_glb.
  - unfold Qle. simpl. lia.
  - unfold Qle. simpl. lia.
Qed.

(** X17.  A confidence below 0.3 is given by the final fallback alone:
    every answer of a stage, and the answer for a missing path, has
    confidence 0.3 or more. *)
Theorem low_confidence_is_fallback (h : Host) (p : Path) (r : DetectionResult) :
  detect_file_type h p = Returned r ->
  (confidence r < 3 # 10)%Q ->
  r = result p UNKNOWN FILESYSTEM (1 # 10) None.
Proof.
  intros D. apply detect_file_type_cases in D.
  destruct D as [E|r E F|r E F M|r E F M L|E F M L B|E F M L B].
  - intros C. now apply (at_least_three_tenths_literal 10) in C.
  - apply _filesystem_tests_cases in F
      as [->|[->|[->|(s & ft & _ & ->)]]]; cbn [confidence result]; intros C;
      exfalso; revert C;
      first [ apply (at_least_three_tenths_literal 10); lia
            | apply at_least_three_tenths_literal; lia ].
  - apply _magic_tests_cases in M
      as (m & [(pat & ft & _ & ->)|[->| ->]]); cbn [confidence result];
      intros C; exfalso; revert C; apply at_least_three_tenths_literal; lia.
  - apply _language_tests_cases in L. destruct L; cbn [confidence result];
      intros C; exfalso; revert C;
      first [ apply at_least_three_tenths_literal; lia
            | now apply at_least_three_tenths_score ].
  - cbn [confidence result]. intros C. exfalso. revert C.
    apply at_least_three_tenths_literal. lia.
  - reflexivity.
Qed.

Lemma low_confidence_is_fallback_witness :
  exists r,
    detect_file_type blob_host (tmp "blob") = Returned r /\
    (confidence r < 3 # 10)%Q /\
    r = result (tmp "blob") UNKNOWN FILESYSTEM (1 # 10) None.
Proof.
  assert (D : detect_file_type blob_host (tmp "blob") =
              Returned (result (tmp "blob") UNKNOWN FILESYSTEM (1 # 10) None))
    by (vm_compute; reflexivity).
  eexists. split; [exact D|]. split; [vm_compute; reflexivity|].
  apply (low_confidence_is_fallback blob_host (tmp "blob") _ D).
  vm_compute. reflexivity.
Defined.

(** ** Categories that share a pattern *)

Lemma matching_cons h content pat w patterns :
  weight_sum (matching h content ((pat, w) :: patterns)) =
  (if re_search (rt h) true pat content then w else 0)
  + weight_sum (matching h content patterns).
Proof.
  unfold weight_sum, matching. cbn [filter fst].
  destruct (re_search (rt h) true pat content); reflexivity.
Qed.

Lemma matching_sum_nonneg h content patterns :
  forallb (fun e => 0 <=? snd e) patterns = true ->
  0 <= weight_sum (matching h content patterns).
Proof.
  induction patterns as [|[pat w] patterns IH].
  - intros _. unfold weight_sum, matching. simpl. lia.
  - cbn [forallb snd]. intros F. apply andb_true_iff in F as [Fw F].
    apply Z.leb_le in Fw. rewrite matching_cons. specialize (IH F).
    destruct (re_search (rt h) true pat content); lia.
Qed.

Lemma weight_sum_matching_ge h content patterns pattern weight :
  forallb (fun e => 0 <=? snd e) patterns = true ->
  In (pattern, weight) patterns ->
  re_search (rt h) true pattern content = true ->
  weight <= weight_sum (matching h content patterns).
Proof.
  induction patterns as [|[pat w] patterns IH]; cbn [forallb In snd];
    [contradiction|].
  intros F Hin S. apply andb_true_iff in F as [Fw F]. apply Z.leb_le in Fw.
  rewrite matching_cons.
  pose proof (matching_sum_nonneg h content patterns F) as N.
  destruct Hin as [E|Hin].
  - injection E as -> ->. rewrite S. lia.
  - specialize (IH F Hin S).
    destruct (re_search (rt h) true pat content); lia.
Qed.

(** X18.  The C++ category is answered by the pattern scoring only for a
    text in which neither an angle-bracket include nor a class declaration
    at a line start occurs: the include pattern makes the C category, and
    the class pattern the Python category, reach the threshold first. *)
Theorem cpp_answer_has_no_include_or_class (h : Host) (p : Path) (content : str)
    (r : DetectionResult) :
  pattern_scan h _build_language_patterns content p = Some r ->
  file_type r = CPP ->
  re_search (rt h) true include_pattern content = false /\
  re_search (rt h) true class_pattern content = false.
Proof.
  unfold _build_language_patterns. cbn [pattern_scan].
  rewrite !score_patterns_spec.
  destruct (3 <=? weight_sum (matching h content python_patterns)) eqn:Py;
    [intros E; inv_some; discriminate|].
  destruct (3 <=? weight_sum (matching h content javascript_patterns));
    [intros E; inv_some; discriminate|].
  destruct (3 <=? weight_sum (matching h content java_patterns));
    [intros E; inv_some; discriminate|].
  destruct (3 <=? weight_sum (matching h content c_patterns)) eqn:Cc;
    [intros E; inv_some; discriminate|].
  intros _ _. apply Z.leb_gt in Py. apply Z.leb_gt in Cc. split.
  - destruct (re_search (rt h) true include_pattern content) eqn:S;
      [|reflexivity].
    pose proof (weight_sum_matching_ge h content c_patterns include_pattern 3
                  eq_refl (or_introl eq_refl) S). lia.
  - destruct (re_search (rt h) true class_pattern content) eqn:S;
      [|reflexivity].
    assert (Hin : In (class_pattern, 3) python_patterns)
      by (unfold python_patterns; simpl; auto).
    pose proof (weight_sum_matching_ge h content python_patterns class_pattern 3
                  eq_refl Hin S). lia.
Qed.

Lemma cpp_answer_has_no_include_or_class_witness :
  pattern_scan cpp_host _build_language_patterns (u "std::cout << x;") (tmp "main") =
    Some (result (tmp "main") CPP LANGUAGE (6 # 10)
            (Some (u "Language patterns: 2 matches"))) /\
  re_search (rt cpp_host) true include_pattern (u "std::cout << x;") = false /\
  re_search (rt cpp_host) true class_pattern (u "std::cout << x;") = false.
Proof.
  split; [vm_compute; reflexivity|].
  apply (cpp_answer_has_no_include_or_class cpp_host (tmp "main")
           (u "std::cout << x;")
           (result (tmp "main") CPP LANGUAGE (6 # 10)
              (Some (u "Language patterns: 2 matches"))));
    vm_compute; reflexivity.
Defined.

(** ** A shebang after a byte order mark *)

Lemma split_first_char sep c s :
  N.eqb c sep = false ->
  exists line lines, split sep (c :: s) = (c :: line) :: lines.
Proof.
  intros E. cbn [split]. rewrite E.
  destruct (split sep s) as [|l ls]; eauto.
Qed.

(** X19.  A script that begins with a UTF-8 byte order mark is not
    recognised by its shebang line: the mark stays in the text as its first
    character, so the first line does not start with "#!". *)
Theorem shebang_after_bom_is_missed (h : Host) (p : Path) (rest : bytes)
    (content : str) :
  decode_first encodings (xef :: xbb :: xbf :: rest) = Some content ->
  shebang_check h content p = None.
Proof.
  rewrite decode_first_cases, decode_utf8_bom.
  intros D.
  assert (C : exists c text, content = c :: text /\ (c = 65279%N \/ c = 239%N)).
  { destruct (decode_utf8 rest) as [text|]; cbn [option_map map] in D;
      injection D as <-; eauto. }
  destruct C as (c & text & -> & Hc).
  assert (E : N.eqb c 10 = false) by (destruct Hc; subst; reflexivity).
  destruct (split_first_char 10%N c text E) as (line & lines & S).
  unfold shebang_check.
  replace (split 10%N (c :: text)) with ((c :: line) :: lines).
  destruct Hc; subst; reflexivity.
Qed.

Lemma shebang_after_bom_is_missed_witness :
  shebang_check script_host
    (65279%N :: u "#!/usr/bin/env python3") (tmp "python_script") = None.
Proof.
  apply (shebang_after_bom_is_missed script_host (tmp "python_script")
           (list_byte_of_string "#!/usr/bin/env python3")).
  reflexivity.
Defined.

(** ** Answers are about the path that was asked *)

Lemma stage_paths h p r :
  _filesystem_tests h p = Some r \/ _magic_tests h p = Some r \/
  _language_tests h p = Some r ->
  file_path r = p.
Proof.
  intros [F|[M|L]].
  - apply _filesystem_tests_cases in F
      as [->|[->|[->|(s & ft & _ & ->)]]]; reflexivity.
  - apply _magic_tests_cases in M
      as (m & [(pat & ft & _ & ->)|[->| ->]]); reflexivity.
  - apply _language_tests_cases in L. destruct L; reflexivity.
Qed.

Lemma detect_path h p r : detect_file_type h p = Returned r -> file_path r = p.
Proof.
  intros D. apply detect_file_type_cases in D.
  destruct D as [E|r E F|r E F M|r E F M L|E F M L B|E F M L B];
    try reflexivity; apply (stage_paths h p); auto.
Qed.

(** X20.  The result of [detect_file_type] for a path, and every result
    that the command line displays for it, also after a test of one stage
    was run again, names that path in [file_path]. *)
Theorem answers_name_their_path (h : Host) (sh : Shell) (o : Options) (p : Path) :
  (forall r, detect_file_type h p = Returned r -> file_path r = p) /\
  forall r, process_file h sh o p = Returned (Some r) -> file_path r = p.
Proof.
  split; [apply detect_path|].
  intros r. unfold process_file.
  destruct (too_deep sh o p); [discriminate|].
  destruct (detect_file_type h p) as [r0|e] eqn:D; cbn [bind]; [|discriminate].
  apply detect_path in D.
  destruct (_ && _); [discriminate|].
  destruct (retest h o p r0) as [r'|] eqn:R; [|discriminate].
  destruct (filtered_out o r'); [discriminate|].
  intros E. injection E as <-.
  unfold retest, _run_specific_test in R.
  repeat break_match_hyp; inv_some;
    first [ reflexivity | exact D | apply (stage_paths h p); auto ].
Qed.

(** ** Scripts, where the signature stage is silent *)

(** X21.  For a regular, non-empty file that the process can read, whose
    first line is [#!/usr/bin/env python3], whose name has no suffix known
    to the extension table and for which the signature stage gives no
    answer, [detect_file_type] answers the Python category through the
    content stage with confidence 0.9 and the explanation "Shebang: "
    followed by the line.  The shebang table is walked in its order: the
    answer for a shebang line is the first entry whose interpreter name
    occurs in it, and there is none exactly when no entry occurs. *)
Theorem shebang_python_script (h : Host) (p : Path) (mode size : Z) (rest : bytes) :
  fs h p = Some (Node mode size (Some (list_byte_of_string shebang_line ++ rest))) ->
  line_ends x0a rest ->
  S_ISREG mode = true ->
  size <> 0 ->
  multiple_extensions_check h p = None ->
  single_extension_check h p = None ->
  _magic_tests h p = None ->
  detect_file_type h p =
    Returned (result p PYTHON LANGUAGE (9 # 10)
                (Some (u "Shebang: " ++ u "#!/usr/bin/env python3"))) /\
  forall shebang,
    match shebang_scan _build_shebang_map shebang p with
    | Some r =>
        exists before pattern ft after,
          _build_shebang_map = before ++ (pattern, ft) :: after /\
          Forall (fun e => str_in (fst e) shebang = false) before /\
          str_in pattern shebang = true /\
          r = result p ft LANGUAGE (9 # 10) (Some (u "Shebang: " ++ shebang))
    | None =>
        Forall (fun e => str_in (fst e) shebang = false) _build_shebang_map
    end.
Proof.
  intros H E R Z Mu Si Ma. split.
  - apply (content_stage_decides h p mode size _ _ H); auto.
    + now apply regular_not_directory.
    + apply (shebang_file_language_tests h p mode size rest H E).
  - intros shebang. apply shebang_scan_first.
Qed.

Lemma shebang_python_script_witness :
  detect_file_type script_host (tmp "python_script") =
    Returned (result (tmp "python_script") PYTHON LANGUAGE (9 # 10)
                (Some (u "Shebang: #!/usr/bin/env python3"))).
Proof.
  apply (shebang_python_script script_host (tmp "python_script") mode_755 33
           (list_byte_of_string "
import os
"));
    try reflexivity; try discriminate.
  right. eexists. reflexivity.
Defined.

(** ** The existence check *)

Example self_link_not_found :
  stat_error self_link_host (tmp "loop") = OSError ELOOP /\
  detect_file_type self_link_host (tmp "loop") =
    Returned (result (tmp "loop") UNKNOWN FILESYSTEM 1 (Some (u "File not found"))).
Proof. split; vm_compute; reflexivity. Qed.

(** X22.  For a path whose [stat] fails with one of the errors that
    [Path.exists] answers with [False] ([ENOENT], [ENOTDIR], [EBADF],
    [ELOOP]: a missing file, a missing directory on the way, a chain of
    more than [MAXSYMLINKS] links), [detect_file_type] returns UNKNOWN,
    stage FILESYSTEM, confidence 1.0, explanation "File not found".  The
    answer is the same whatever the runtime, libmagic and the rest of the
    file system hold: no stage is consulted. *)
Theorem missing_path_is_unknown (h : Host) (p : Path) :
  path_stat h p = None ->
  _ignore_error (stat_error h p) = true ->
  path_exists h p = Returned false /\
  detect_file_type h p =
    Returned (result p UNKNOWN FILESYSTEM 1 (Some (u "File not found"))).
Proof.
  intros S I.
  assert (E : path_exists h p = Returned false) by (now apply path_exists_false).
  split; [exact E | now apply not_found_answer].
Qed.

Lemma missing_path_is_unknown_witness :
  path_exists unreadable_host (tmp "does_not_exist.txt") = Returned false /\
  detect_file_type unreadable_host (tmp "does_not_exist.txt") =
    Returned (result (tmp "does_not_exist.txt") UNKNOWN FILESYSTEM 1
                (Some (u "File not found"))).
Proof.
  apply (missing_path_is_unknown unreadable_host (tmp "does_not_exist.txt"));
    reflexivity.
Defined.

(** X23.  A symbolic link whose target the existence check finds missing
    is answered as a missing path, not as SYMLINK, although [is_symlink]
    holds of it: the existence check follows the link and comes before the
    filesystem stage. *)
Theorem dangling_symlink_not_found (h : Host) (p target : Path) :
  fs h p = Some (Symlink target) ->
  path_exists h target = Returned false ->
  is_symlink h p = true /\
  detect_file_type h p =
    Returned (result p UNKNOWN FILESYSTEM 1 (Some (u "File not found"))) /\
  (forall r, detect_file_type h p = Returned r -> file_type r <> SYMLINK).
Proof.
  intros Hp Ht.
  assert (D : detect_file_type h p =
              Returned (result p UNKNOWN FILESYSTEM 1 (Some (u "File not found")))).
  { apply not_found_answer. eapply symlink_exists_target; eassumption. }
  repeat split.
  - unfold is_symlink. now rewrite Hp.
  - exact D.
  - intros r R. rewrite D in R. injection R as <-. discriminate.
Qed.

Lemma dangling_symlink_not_found_witness :
  is_symlink dangling_host (tmp "link") = true /\
  detect_file_type dangling_host (tmp "link") =
    Returned (result (tmp "link") UNKNOWN FILESYSTEM 1
                (Some (u "File not found"))) /\
  (forall r, detect_file_type dangling_host (tmp "link") = Returned r ->
             file_type r <> SYMLINK).
Proof.
  apply (dangling_symlink_not_found dangling_host (tmp "link") (tmp "gone"));
    reflexivity.
Defined.

